(** * Config-drift schema gate: a shallow embedding of [main.py]

    The program loads a configuration file (JSON or YAML), loads a JSON
    schema, asks the [jsonschema] engine whether the first conforms to the
    second and reports the outcome on stdout, on the log and through the
    process exit code.

    Everything the script calls but does not define -- the file system,
    [json], [yaml] and [jsonschema.validate] -- is a field of the record
    [Env]; the script's own functions are translated one by one on top of
    it.  Python's exceptions are values of a small class hierarchy and
    [try ... except] is first-match dispatch on that hierarchy.  Effects
    (external calls, logging, printing) are recorded in an event trace. *)

From Stdlib Require Import String Ascii List ZArith Bool Lia.
Import ListNotations.
Open Scope string_scope.
Open Scope list_scope.
Set Warnings "-register-all".

(** ** Python values and truthiness *)

(** A float is kept symbolically: sign, mantissa and binary exponent, or
    one of the special values.  Only its truth value matters here. *)
Inductive pyfloat : Type :=
| FNaN
| FInf (negative : bool)
| FFinite (negative : bool) (mantissa : N) (exponent : Z).

(** The documents [json.load] builds; [yaml.safe_load] builds the same
    shapes for the YAML that has a JSON counterpart. *)
Inductive value : Type :=
| VNone
| VBool (b : bool)
| VInt (n : Z)
| VFloat (x : pyfloat)
| VStr (s : string)
| VList (items : list value)
| VDict (items : list (value * value)).

Definition is_empty_string (s : string) : bool :=
  match s with EmptyString => true | String _ _ => false end.

(** [bool(v)]: the test behind [if not config_data]. *)
Definition truthy (v : value) : bool :=
  match v with
  | VNone => false
  | VBool b => b
  | VInt n => negb (Z.eqb n 0)
  | VFloat (FFinite _ m _) => negb (N.eqb m 0)
  | VFloat _ => true
  | VStr s => negb (is_empty_string s)
  | VList [] => false
  | VList (_ :: _) => true
  | VDict [] => false
  | VDict (_ :: _) => true
  end.

(** ** Strings: [str.endswith] and [str.strip]

    Text is a [string] of code points below 256. *)

Definition endswith (s suffix : string) : bool :=
  let n := String.length s in
  let m := String.length suffix in
  if Nat.leb m n then String.eqb (substring (n - m) m s) suffix else false.

(** [str.isspace] on one character, for code points below 256. *)
Definition isspace (c : ascii) : bool :=
  let n := nat_of_ascii c in
  (Nat.leb 9 n && Nat.leb n 13) || (Nat.leb 28 n && Nat.leb n 32)
  || Nat.eqb n 133 || Nat.eqb n 160.

Fixpoint lstrip (s : string) : string :=
  match s with
  | EmptyString => EmptyString
  | String c s' => if isspace c then lstrip s' else s
  end.

Fixpoint rstrip (s : string) : string :=
  match s with
  | EmptyString => EmptyString
  | String c s' =>
      match rstrip s' with
      | EmptyString => if isspace c then EmptyString else String c EmptyString
      | r => String c r
      end
  end.

Definition strip (s : string) : string := rstrip (lstrip s).

(** Every character is white space (this includes the empty text). *)
Fixpoint whitespace_only (s : string) : bool :=
  match s with
  | EmptyString => true
  | String c s' => isspace c && whitespace_only s'
  end.

(** ** Exceptions *)

(** The classes the script raises, catches, or can meet from its
    libraries.  [OSError] stands for every I/O failure other than a
    missing file, [Exception] for any other error. *)
Inductive exc_class : Type :=
| Exception
| OSError
| FileNotFoundError
| ValueError
| JSONDecodeError
| UnicodeDecodeError
| YAMLError
| ValidationError
| SchemaError.

Definition exc_class_eqb (c d : exc_class) : bool :=
  match c, d with
  | Exception, Exception | OSError, OSError
  | FileNotFoundError, FileNotFoundError | ValueError, ValueError
  | JSONDecodeError, JSONDecodeError
  | UnicodeDecodeError, UnicodeDecodeError | YAMLError, YAMLError
  | ValidationError, ValidationError | SchemaError, SchemaError => true
  | _, _ => false
  end.

(** The direct base class. *)
Definition base (c : exc_class) : option exc_class :=
  match c with
  | Exception => None
  | FileNotFoundError => Some OSError
  | JSONDecodeError | UnicodeDecodeError => Some ValueError
  | OSError | ValueError | YAMLError | ValidationError | SchemaError =>
      Some Exception
  end.

(** [issubclass c d]; the hierarchy is two levels deep. *)
Definition issubclass (c d : exc_class) : bool :=
  exc_class_eqb c d
  || match base c with
     | None => false
     | Some b =>
         exc_class_eqb b d
         || match base b with
            | None => false
            | Some b' => exc_class_eqb b' d
            end
     end.

(** An exception object: its class and [str(e)]. *)
Record exception : Type := mk_exc { exc_cls : exc_class; exc_str : string }.

(** ** Events and the effect monad *)

Inductive level : Type := DEBUG | INFO | WARNING | ERROR | CRITICAL.

Definition levelno (l : level) : Z :=
  match l with
  | DEBUG => 10 | INFO => 20 | WARNING => 30 | ERROR => 40 | CRITICAL => 50
  end.

Inductive event : Type :=
| EvOpen (path : string)                 (* open(path, 'r') *)
| EvRead (path : string)                 (* f.read() *)
| EvJsonLoad (path : string)             (* json.load(f) *)
| EvJsonLoads (content : string)         (* json.loads(content) *)
| EvYamlLoad (path : string)             (* yaml.safe_load(f) *)
| EvYamlLoads (content : string)         (* yaml.safe_load(content) *)
| EvValidate (instance schema : value)   (* jsonschema.validate(...) *)
| EvSetLevel (l : level)                 (* getLogger().setLevel(l) *)
| EvLog (l : level) (msg : string)       (* logging.info / logging.error *)
| EvPrint (line : string).               (* print(line) *)

(** How a computation ends: a value, a raised exception, or [sys.exit]
    ([SystemExit] is not an [Exception], so no handler below sees it). *)
Inductive outcome (A : Type) : Type :=
| Return (a : A)
| Raise (e : exception)
| Exit (code : Z).
Arguments Return {A} a.
Arguments Raise {A} e.
Arguments Exit {A} code.

Definition M (A : Type) : Type := (outcome A * list event)%type.

Definition ret {A} (a : A) : M A := (Return a, []).
Definition raise {A} (e : exception) : M A := (Raise e, []).
Definition sys_exit {A} (code : Z) : M A := (Exit code, []).
Definition emit (ev : event) : M unit := (Return tt, [ev]).

Definition bind {A B} (m : M A) (k : A -> M B) : M B :=
  match m with
  | (Return a, t) => let (o, t') := k a in (o, t ++ t')
  | (Raise e, t) => (Raise e, t)
  | (Exit c, t) => (Exit c, t)
  end.

Notation "x <- m ;; k" := (bind m (fun x => k))
  (at level 61, m at next level, right associativity).
Notation "m ;;; k" := (bind m (fun _ => k))
  (at level 61, right associativity).

(** One [except C as e: ...] clause. *)
Definition handler (A : Type) : Type := (exc_class * (exception -> M A))%type.

(** The first clause whose class the exception is an instance of. *)
Fixpoint dispatch {A} (hs : list (handler A)) (e : exception) : option (M A) :=
  match hs with
  | [] => None
  | (c, h) :: hs' =>
      if issubclass (exc_cls e) c then Some (h e) else dispatch hs' e
  end.

(** [try: m except ...: hs]. *)
Definition try_ {A} (m : M A) (hs : list (handler A)) : M A :=
  match m with
  | (Raise e, t) =>
      match dispatch hs e with
      | Some (o, t') => (o, t ++ t')
      | None => (Raise e, t)
      end
  | other => other
  end.

(** A call into the outside world: one event, then its result. *)
Definition call {A} (ev : event) (r : exception + A) : M A :=
  (match r with inl e => Raise e | inr a => Return a end, [ev]).

Definition call_ (ev : event) (r : option exception) : M unit :=
  (match r with Some e => Raise e | None => Return tt end, [ev]).

Definition print (line : string) : M unit := emit (EvPrint line).
Definition logging_info (msg : string) : M unit := emit (EvLog INFO msg).
Definition logging_error (msg : string) : M unit := emit (EvLog ERROR msg).

(** ** The outside world *)

Record Env : Type := {
  (** [open(path, 'r')]: [None] when the file opens. *)
  fs_open : string -> option exception;
  (** reading the whole opened file as text *)
  fs_read : string -> exception + string;
  (** [json.loads] *)
  json_loads : string -> exception + value;
  (** [yaml.safe_load] on text *)
  yaml_safe_load : string -> exception + value;
  (** [jsonschema.validate(instance, schema)]: [None] on conformance. *)
  validate : value -> value -> option exception
}.

(** [argparse]'s namespace. *)
Record Args : Type := {
  config_file : string;
  schema_file : string;
  format : option string;
  log_level : level
}.

(** ** The script *)

Section Script.

Variable E : Env.

(** [json.load(f)] is [json.loads(f.read())]. *)
Definition json_load (path : string) : exception + value :=
  match fs_read E path with
  | inl e => inl e
  | inr content => json_loads E content
  end.

(** [yaml.safe_load(f)] reads the stream, then parses it. *)
Definition yaml_load (path : string) : exception + value :=
  match fs_read E path with
  | inl e => inl e
  | inr content => yaml_safe_load E content
  end.

Definition format_is (format : option string) (name : string) : bool :=
  match format with
  | Some f => String.eqb f name
  | None => false
  end.

Definition is_None (format : option string) : bool :=
  match format with Some _ => false | None => true end.

(** The body of [with open(config_file, 'r') as f:] in [load_config]. *)
Definition parse_config (config_file : string) (format : option string)
  : M value :=
  call_ (EvOpen config_file) (fs_open E config_file) ;;;
  if format_is format "json" || (is_None format && endswith config_file ".json")
  then
    try_ (call (EvJsonLoad config_file) (json_load config_file))
      [ (JSONDecodeError, fun e =>
           raise (mk_exc ValueError
             ("Invalid JSON format in " ++ config_file ++ ": " ++ exc_str e))) ]
  else if format_is format "yaml"
          || (is_None format
              && (endswith config_file ".yaml" || endswith config_file ".yml"))
  then
    try_ (call (EvYamlLoad config_file) (yaml_load config_file))
      [ (YAMLError, fun e =>
           raise (mk_exc ValueError
             ("Invalid YAML format in " ++ config_file ++ ": " ++ exc_str e))) ]
  else
    content <- call (EvRead config_file) (fs_read E config_file) ;;
    if is_empty_string (strip content)
    then raise (mk_exc ValueError
                  ("Configuration file " ++ config_file ++ " is empty."))
    else
      try_ (call (EvJsonLoads content) (json_loads E content))
        [ (JSONDecodeError, fun _ =>
             try_ (call (EvYamlLoads content) (yaml_safe_load E content))
               [ (YAMLError, fun _ =>
                    raise (mk_exc ValueError
                      ("Could not determine format of " ++ config_file
                       ++ ".  Please specify format using -f/--format."))) ]) ].

Definition load_config (config_file : string) (format : option string)
  : M value :=
  try_
    (config_data <- parse_config config_file format ;;
     if negb (truthy config_data)
     then raise (mk_exc ValueError
                   ("Configuration file " ++ config_file
                    ++ " is empty or contains no data."))
     else ret config_data)
    [ (FileNotFoundError, fun _ =>
         raise (mk_exc FileNotFoundError
                  ("Configuration file not found: " ++ config_file)));
      (ValueError, fun e => raise e);
      (Exception, fun e =>
         raise (mk_exc Exception
                  ("Error reading configuration file: " ++ exc_str e))) ].

Definition load_schema (schema_file : string) : M value :=
  try_
    (call_ (EvOpen schema_file) (fs_open E schema_file) ;;;
     schema_data <-
       try_ (call (EvJsonLoad schema_file) (json_load schema_file))
         [ (JSONDecodeError, fun e =>
              raise (mk_exc ValueError
                ("Invalid JSON format in schema file " ++ schema_file
                 ++ ": " ++ exc_str e))) ] ;;
     ret schema_data)
    [ (FileNotFoundError, fun _ =>
         raise (mk_exc FileNotFoundError
                  ("Schema file not found: " ++ schema_file)));
      (Exception, fun e =>
         raise (mk_exc Exception ("Error reading schema file: " ++ exc_str e))) ].

Definition validate_config (config_data schema_data : value) : M bool :=
  try_
    (call_ (EvValidate config_data schema_data)
           (validate E config_data schema_data) ;;;
     ret true)
    [ (ValidationError, fun e =>
         raise (mk_exc ValidationError
                  ("Configuration validation error: " ++ exc_str e)));
      (SchemaError, fun e =>
         raise (mk_exc SchemaError ("Invalid schema: " ++ exc_str e)));
      (Exception, fun e =>
         raise (mk_exc Exception
                  ("An unexpected error occurred during validation: "
                   ++ exc_str e))) ].

Definition valid_message : string := "Configuration is valid.".

Definition fallback_message : string :=
  "Configuration is invalid, but no exception was raised. This is unexpected.".

(** The [try] block of [main]. *)
Definition main_try (args : Args) : M unit :=
  config_data <- load_config (config_file args) (format args) ;;
  schema_data <- load_schema (schema_file args) ;;
  ok <- validate_config config_data schema_data ;;
  if (ok : bool)
  then logging_info valid_message ;;; print valid_message
  else logging_error fallback_message ;;; print fallback_message.

(** The four clauses that report [Error: <message>]. *)
Definition report_error (e : exception) : M unit :=
  logging_error (exc_str e) ;;;
  print ("Error: " ++ exc_str e) ;;;
  sys_exit 1%Z.

(** The last clause, [except Exception]. *)
Definition report_unexpected (e : exception) : M unit :=
  logging_error ("An unexpected error occurred: " ++ exc_str e) ;;;
  print ("An unexpected error occurred: " ++ exc_str e) ;;;
  sys_exit 1%Z.

Definition main (args : Args) : M unit :=
  emit (EvSetLevel (log_level args)) ;;;
  try_ (main_try args)
    [ (FileNotFoundError, report_error);
      (ValueError, report_error);
      (ValidationError, report_error);
      (SchemaError, report_error);
      (Exception, report_unexpected) ].

End Script.

(** ** Observations of a run *)

(** The exit status of the process that ran [m] as its main program. *)
Definition exit_code {A} (m : M A) : Z :=
  match fst m with
  | Return _ => 0
  | Exit c => c
  | Raise _ => 1
  end.

(** The lines written to stdout, in order. *)
Fixpoint stdout_of (t : list event) : list string :=
  match t with
  | [] => []
  | EvPrint line :: t' => line :: stdout_of t'
  | _ :: t' => stdout_of t'
  end.

(** The messages handed to [logging], in order. *)
Fixpoint logged (t : list event) : list (level * string) :=
  match t with
  | [] => []
  | EvLog l msg :: t' => (l, msg) :: logged t'
  | _ :: t' => logged t'
  end.

(** The records that reach the log stream: a record passes when its level
    is at least the root logger's current level. *)
Fixpoint log_stream (current : level) (t : list event)
  : list (level * string) :=
  match t with
  | [] => []
  | EvSetLevel l :: t' => log_stream l t'
  | EvLog l msg :: t' =>
      if Z.leb (levelno current) (levelno l)
      then (l, msg) :: log_stream current t'
      else log_stream current t'
  | _ :: t' => log_stream current t'
  end.

(** [logging.basicConfig(level=logging.INFO, ...)] at import time. *)
Definition surfaced (t : list event) : list (level * string) :=
  log_stream INFO t.

Definition is_validate (ev : event) : bool :=
  match ev with EvValidate _ _ => true | _ => false end.

(** The engine was called at some point of the trace. *)
Definition validator_invoked (t : list event) : bool := existsb is_validate t.

(** Events of content-based autodetection: the raw read and the two trial
    parses of the text. *)
Definition is_autodetect (ev : event) : bool :=
  match ev with
  | EvRead _ | EvJsonLoads _ | EvYamlLoads _ => true
  | _ => false
  end.

Definition autodetect_attempted (t : list event) : bool :=
  existsb is_autodetect t.

Definition is_yaml (ev : event) : bool :=
  match ev with
  | EvYamlLoad _ | EvYamlLoads _ => true
  | _ => false
  end.

Definition with_format (a : Args) (f : option string) : Args :=
  {| config_file := config_file a; schema_file := schema_file a;
     format := f; log_level := log_level a |}.

Definition with_log_level (a : Args) (l : level) : Args :=
  {| config_file := config_file a; schema_file := schema_file a;
     format := format a; log_level := l |}.

(** ** A small concrete world

    A handful of files and the answers the real libraries give on them.
    Paths and texts outside the tables get a placeholder answer. *)

Module Demo.

Definition dq : string := String (ascii_of_nat 34) EmptyString.
Definition nl : string := String (ascii_of_nat 10) EmptyString.

(** The text [{"type": "object"}]. *)
Definition object_schema_text : string :=
  "{" ++ dq ++ "type" ++ dq ++ ": " ++ dq ++ "object" ++ dq ++ "}".

Definition files : list (string * string) :=
  [ ("conf.json", "[1, 2]");
    ("conf.txt", "[1, 2]");
    ("empty.json", EmptyString);
    ("empty.yaml", EmptyString);
    ("empty.conf", EmptyString);
    ("settings.json", "a: 1");
    ("settings.yml", "a: 1");
    ("settings.conf", "a: 1");
    ("zero.json", "0");
    ("any.schema", "{}");
    ("object.schema", object_schema_text);
    ("broken.schema", "not json at all") ].

Fixpoint lookup {A} (k : string) (table : list (string * A)) : option A :=
  match table with
  | [] => None
  | (k', a) :: rest => if String.eqb k k' then Some a else lookup k rest
  end.

Definition no_such_file (path : string) : exception :=
  mk_exc FileNotFoundError
    ("[Errno 2] No such file or directory: '" ++ path ++ "'").

Definition permission_denied (path : string) : exception :=
  mk_exc OSError ("[Errno 13] Permission denied: '" ++ path ++ "'").

(** [locked.json] exists but may not be read by this user. *)
Definition demo_open (path : string) : option exception :=
  if String.eqb path "locked.json" then Some (permission_denied path)
  else match lookup path files with
       | Some _ => None
       | None => Some (no_such_file path)
       end.

Definition demo_read (path : string) : exception + string :=
  match lookup path files with
  | Some text => inr text
  | None => inl (no_such_file path)
  end.

Definition type_object : value := VDict [(VStr "type", VStr "object")].

Definition json_table : list (string * value) :=
  [ ("[1, 2]", VList [VInt 1; VInt 2]);
    ("0", VInt 0);
    ("{}", VDict []);
    (object_schema_text, type_object) ].

(** The empty text, [a: 1] and [not json at all] all fail at the first
    character. *)
Definition demo_json_loads (text : string) : exception + value :=
  match lookup text json_table with
  | Some v => inr v
  | None =>
      inl (mk_exc JSONDecodeError "Expecting value: line 1 column 1 (char 0)")
  end.

Definition yaml_table : list (string * value) :=
  [ (EmptyString, VNone);
    ("a: 1", VDict [(VStr "a", VInt 1)]);
    ("[1, 2]", VList [VInt 1; VInt 2]);
    ("0", VInt 0);
    ("{}", VDict []) ].

Definition demo_yaml_safe_load (text : string) : exception + value :=
  match lookup text yaml_table with
  | Some v => inr v
  | None => inl (mk_exc YAMLError "while scanning the document")
  end.

(** What the engine says about the list [[1, 2]] under
    [{"type": "object"}]. *)
Definition not_an_object : string :=
  "[1, 2] is not of type 'object'" ++ nl ++ nl
  ++ "Failed validating 'type' in schema:" ++ nl
  ++ "    {'type': 'object'}" ++ nl ++ nl
  ++ "On instance:" ++ nl
  ++ "    [1, 2]".

(** The engine on the two schemas of the table: [{}] accepts everything,
    [{"type": "object"}] accepts mappings. *)
Definition demo_validate (instance schema : value) : option exception :=
  match schema with
  | VDict [] => None
  | VDict [(VStr _, VStr _)] =>
      match instance with
      | VDict _ => None
      | _ => Some (mk_exc ValidationError not_an_object)
      end
  | _ => Some (mk_exc SchemaError "the schema is not a valid JSON Schema")
  end.

Definition world : Env :=
  {| fs_open := demo_open;
     fs_read := demo_read;
     json_loads := demo_json_loads;
     yaml_safe_load := demo_yaml_safe_load;
     validate := demo_validate |}.

Definition args (config schema : string) (f : option string) : Args :=
  {| config_file := config; schema_file := schema;
     format := f; log_level := INFO |}.

End Demo.

(** ** Variants of the concrete world

    Each one changes a single collaborator of [Demo.world]. *)

Module Variants.

(** What [f.read()] raises on a file that is not UTF-8 text. *)
Definition undecodable : exception :=
  mk_exc UnicodeDecodeError
    "'utf-8' codec can't decode byte 0xff in position 0: invalid start byte".

(** What [f.read()] raises on a directory opened by mistake. *)
Definition is_a_directory : exception :=
  mk_exc OSError "[Errno 21] Is a directory".

(** Every file opens, none can be decoded. *)
Definition binary_files : Env :=
  {| fs_open := fun _ => None;
     fs_read := fun _ => inl undecodable;
     json_loads := Demo.demo_json_loads;
     yaml_safe_load := Demo.demo_yaml_safe_load;
     validate := Demo.demo_validate |}.

(** Every file opens, reading fails in the operating system. *)
Definition broken_disk : Env :=
  {| fs_open := fun _ => None;
     fs_read := fun _ => inl is_a_directory;
     json_loads := Demo.demo_json_loads;
     yaml_safe_load := Demo.demo_yaml_safe_load;
     validate := Demo.demo_validate |}.

(** The files of [Demo.world] with a JSON parser that answers something
    else: used to show that a run does not listen to it. *)
Definition other_json : Env :=
  {| fs_open := Demo.demo_open;
     fs_read := Demo.demo_read;
     json_loads := fun _ => inr (VInt 7);
     yaml_safe_load := Demo.demo_yaml_safe_load;
     validate := Demo.demo_validate |}.

(** Likewise for the YAML parser. *)
Definition other_yaml : Env :=
  {| fs_open := Demo.demo_open;
     fs_read := Demo.demo_read;
     json_loads := Demo.demo_json_loads;
     yaml_safe_load := fun _ => inr (VInt 7);
     validate := Demo.demo_validate |}.

(** Every file holds the single character [{], which neither parser
    accepts. *)
Definition unparsable : Env :=
  {| fs_open := fun _ => None;
     fs_read := fun _ => inr "{";
     json_loads := fun _ =>
       inl (mk_exc JSONDecodeError
              "Expecting property name enclosed in double quotes: line 1 column 2 (char 1)");
     yaml_safe_load := fun _ =>
       inl (mk_exc YAMLError "while parsing a flow node");
     validate := Demo.demo_validate |}.

(** The files of [Demo.world] with an engine that runs out of stack. *)
Definition crashing_engine : Env :=
  {| fs_open := Demo.demo_open;
     fs_read := Demo.demo_read;
     json_loads := Demo.demo_json_loads;
     yaml_safe_load := Demo.demo_yaml_safe_load;
     validate := fun _ _ =>
       Some (mk_exc Exception "maximum recursion depth exceeded") |}.

(** The text that holds the single character U+00A0 (no-break space):
    white space for [str.strip], an ordinary character for YAML. *)
Definition nbsp : string := String (ascii_of_nat 160) EmptyString.

(** [Demo.world] with one more file, [blank.yaml], that holds [nbsp];
    [yaml.safe_load] reads that text as a one-character string. *)
Definition nbsp_yaml : Env :=
  {| fs_open := fun path =>
       if String.eqb path "blank.yaml" then None else Demo.demo_open path;
     fs_read := fun path =>
       if String.eqb path "blank.yaml" then inr nbsp else Demo.demo_read path;
     json_loads := Demo.demo_json_loads;
     yaml_safe_load := fun text =>
       if String.eqb text nbsp then inr (VStr nbsp)
       else Demo.demo_yaml_safe_load text;
     validate := Demo.demo_validate |}.

End Variants.

(** ** Vocabulary of the statements *)

(** The exception is caught by one of the four clauses of [main] that
    print [Error: <message>]. *)
Definition reported_as_error (c : exc_class) : bool :=
  issubclass c FileNotFoundError || issubclass c ValueError
  || issubclass c ValidationError || issubclass c SchemaError.

(** The exception [validate_config] raises when the engine raised [e]. *)
Definition engine_error (e : exception) : exception :=
  if issubclass (exc_cls e) ValidationError
  then mk_exc ValidationError ("Configuration validation error: " ++ exc_str e)
  else if issubclass (exc_cls e) SchemaError
  then mk_exc SchemaError ("Invalid schema: " ++ exc_str e)
  else mk_exc Exception
         ("An unexpected error occurred during validation: " ++ exc_str e).

(** The two tests of [load_config]'s [if ... elif ...]. *)
Definition selects_json (path : string) (format : option string) : bool :=
  format_is format "json" || (is_None format && endswith path ".json").

Definition selects_yaml (path : string) (format : option string) : bool :=
  format_is format "yaml"
  || (is_None format && (endswith path ".yaml" || endswith path ".yml")).

(** The hint or the extension selects the parser. *)
Definition format_determined (path : string) (format : option string) : bool :=
  format_is format "json" || format_is format "yaml"
  || (is_None format
      && (endswith path ".json" || endswith path ".yaml"
          || endswith path ".yml")).

(** Events of the two loaders: file and parser calls only. *)
Definition is_io (ev : event) : bool :=
  match ev with
  | EvOpen _ | EvRead _ | EvJsonLoad _ | EvJsonLoads _
  | EvYamlLoad _ | EvYamlLoads _ => true
  | _ => false
  end.

(** Events that neither print nor touch the logger. *)
Definition is_quiet (ev : event) : bool := is_io ev || is_validate ev.

(** A computation that never calls [sys.exit] and only does file and
    parser calls. *)
Definition loader_like {A} (m : M A) : Prop :=
  (forall c, fst m <> Exit c) /\ forallb is_io (snd m) = true.

(** The run is turned down before the engine is called: exit code 1, no
    engine call, and [Error: <message>] on stdout. *)
Definition rejected_with (E : Env) (a : Args) (message : string) : Prop :=
  exit_code (main E a) = 1%Z
  /\ validator_invoked (snd (main E a)) = false
  /\ stdout_of (snd (main E a)) = [ ("Error: " ++ message)%string ].

(** [main()] from its first line.  [parser.parse_args()] is a call into
    [argparse]: it returns the namespace, or leaves through [sys.exit]
    after printing the usage text ([-h]) or an error (a refused
    argument).  What follows it is [main]. *)
Definition run_main (E : Env) (parse_args : M Args) : M unit :=
  args <- parse_args ;; main E args.

(** ** Sanity checks on the concrete world *)

Example demo_valid_run :
  main Demo.world (Demo.args "conf.json" "any.schema" None)
  = (Return tt,
     [ EvSetLevel INFO; EvOpen "conf.json"; EvJsonLoad "conf.json";
       EvOpen "any.schema"; EvJsonLoad "any.schema";
       EvValidate (VList [VInt 1; VInt 2]) (VDict []);
       EvLog INFO "Configuration is valid.";
       EvPrint "Configuration is valid." ]).
Proof. reflexivity. Qed.

Example demo_missing_config :
  stdout_of (snd (main Demo.world (Demo.args "nope.json" "any.schema" None)))
  = [ "Error: Configuration file not found: nope.json" ]
  /\ exit_code (main Demo.world (Demo.args "nope.json" "any.schema" None)) = 1%Z.
Proof. split; reflexivity. Qed.

Example demo_autodetect_yaml :
  load_config Demo.world "settings.conf" None
  = (Return (VDict [(VStr "a", VInt 1)]),
     [ EvOpen "settings.conf"; EvRead "settings.conf";
       EvJsonLoads "a: 1"; EvYamlLoads "a: 1" ]).
Proof. reflexivity. Qed.

Example demo_broken_schema :
  stdout_of (snd (main Demo.world (Demo.args "conf.json" "broken.schema" None)))
  = [ "An unexpected error occurred: Error reading schema file: Invalid JSON format in schema file broken.schema: Expecting value: line 1 column 1 (char 0)" ].
Proof. reflexivity. Qed.

Example demo_yaml_schema_rejected :
  fst (load_schema Demo.world "settings.yml")
  = Raise (mk_exc Exception
      "Error reading schema file: Invalid JSON format in schema file settings.yml: Expecting value: line 1 column 1 (char 0)").
Proof. reflexivity. Qed.

Example strip_examples :
  strip "  a b  " = "a b" /\ strip "   " = EmptyString
  /\ endswith "conf.json" ".json" = true /\ endswith "json" ".json" = false.
Proof. repeat split; reflexivity. Qed.

(** ** Strings *)

Lemma lstrip_whitespace_only (s : string) :
  whitespace_only s = true -> lstrip s = EmptyString.
Proof.
  induction s as [|c s IH]; simpl; [reflexivity|].
  intros H. apply andb_true_iff in H as [Hc Hs].
  rewrite Hc. exact (IH Hs).
Qed.

Lemma rstrip_empty (s : string) :
  rstrip s = EmptyString -> whitespace_only s = true.
Proof.
  induction s as [|c s IH]; simpl; [reflexivity|].
  destruct (rstrip s) eqn:R; [|discriminate].
  destruct (isspace c); [|discriminate].
  intros _. simpl. exact (IH eq_refl).
Qed.

Lemma lstrip_empty (s : string) :
  whitespace_only (lstrip s) = true -> whitespace_only s = true.
Proof.
  induction s as [|c s IH]; simpl; [reflexivity|].
  destruct (isspace c) eqn:Hc; simpl.
  - exact IH.
  - rewrite Hc. discriminate.
Qed.

(** [not content.strip()] holds exactly for white-space-only text. *)
Lemma strip_empty_iff (s : string) :
  is_empty_string (strip s) = true <-> whitespace_only s = true.
Proof.
  unfold strip. split.
  - intros H. apply lstrip_empty, rstrip_empty.
    destruct (rstrip (lstrip s)); [reflexivity|discriminate].
  - intros H. rewrite (lstrip_whitespace_only s H). reflexivity.
Qed.

(** ** Exceptions *)

Lemma issubclass_Exception (c : exc_class) : issubclass c Exception = true.
Proof. destruct c; reflexivity. Qed.

Lemma issubclass_refl (c : exc_class) : issubclass c c = true.
Proof. destruct c; reflexivity. Qed.

(** ** Traces *)

Lemma stdout_of_app (t u : list event) :
  stdout_of (t ++ u) = stdout_of t ++ stdout_of u.
Proof.
  induction t as [|ev t IH]; simpl; [reflexivity|].
  destruct ev; simpl; rewrite IH; reflexivity.
Qed.

Lemma logged_app (t u : list event) : logged (t ++ u) = logged t ++ logged u.
Proof.
  induction t as [|ev t IH]; simpl; [reflexivity|].
  destruct ev; simpl; rewrite IH; reflexivity.
Qed.

Lemma io_quiet (t : list event) :
  forallb is_io t = true -> forallb is_quiet t = true.
Proof.
  induction t as [|ev t IH]; simpl; [reflexivity|].
  intros H. apply andb_true_iff in H as [Hev Ht].
  unfold is_quiet at 1. rewrite Hev, (IH Ht). reflexivity.
Qed.

Lemma quiet_stdout (t : list event) :
  forallb is_quiet t = true -> stdout_of t = [].
Proof.
  induction t as [|ev t IH]; simpl; [reflexivity|].
  intros H. apply andb_true_iff in H as [Hev Ht].
  destruct ev; try discriminate; exact (IH Ht).
Qed.

Lemma quiet_logged (t : list event) :
  forallb is_quiet t = true -> logged t = [].
Proof.
  induction t as [|ev t IH]; simpl; [reflexivity|].
  intros H. apply andb_true_iff in H as [Hev Ht].
  destruct ev; try discriminate; exact (IH Ht).
Qed.

Lemma quiet_log_stream (t u : list event) (l : level) :
  forallb is_quiet t = true -> log_stream l (t ++ u) = log_stream l u.
Proof.
  induction t as [|ev t IH]; simpl; [reflexivity|].
  intros H. apply andb_true_iff in H as [Hev Ht].
  destruct ev; try discriminate; exact (IH Ht).
Qed.

Lemma io_validator (t : list event) :
  forallb is_io t = true -> validator_invoked t = false.
Proof.
  unfold validator_invoked.
  induction t as [|ev t IH]; simpl; [reflexivity|].
  intros H. apply andb_true_iff in H as [Hev Ht].
  destruct ev; try discriminate; exact (IH Ht).
Qed.

(** ** The effect monad: closure of [loader_like] *)

Lemma loader_like_ret {A} (a : A) : loader_like (ret a).
Proof. split; [intros c; discriminate|reflexivity]. Qed.

Lemma loader_like_raise {A} (e : exception) : loader_like (@raise A e).
Proof. split; [intros c; discriminate|reflexivity]. Qed.

Lemma loader_like_call {A} (ev : event) (r : exception + A) :
  is_io ev = true -> loader_like (call ev r).
Proof.
  intros H. split; simpl.
  - intros c. destruct r; discriminate.
  - rewrite H. reflexivity.
Qed.

Lemma loader_like_call_ (ev : event) (r : option exception) :
  is_io ev = true -> loader_like (call_ ev r).
Proof.
  intros H. split; simpl.
  - intros c. destruct r; discriminate.
  - rewrite H. reflexivity.
Qed.

Lemma loader_like_bind {A B} (m : M A) (k : A -> M B) :
  loader_like m -> (forall a, loader_like (k a)) -> loader_like (bind m k).
Proof.
  intros [Hm Ht] Hk. unfold loader_like, bind.
  destruct m as [[a|e|c] t]; simpl in *.
  - destruct (Hk a) as [Ho Hu]. destruct (k a) as [o u]; simpl in *.
    split; [exact Ho|]. rewrite forallb_app, Ht, Hu. reflexivity.
  - split; [intros c; discriminate|exact Ht].
  - exfalso. exact (Hm c eq_refl).
Qed.

Lemma loader_like_dispatch {A} (hs : list (handler A)) (e : exception) (m : M A) :
  Forall (fun h => forall x, loader_like (snd h x)) hs ->
  dispatch hs e = Some m -> loader_like m.
Proof.
  induction 1 as [|[c h] hs Hh _ IH]; simpl; [discriminate|].
  destruct (issubclass (exc_cls e) c).
  - intros [= <-]. apply Hh.
  - exact IH.
Qed.

Lemma loader_like_try {A} (m : M A) (hs : list (handler A)) :
  loader_like m ->
  Forall (fun h => forall x, loader_like (snd h x)) hs ->
  loader_like (try_ m hs).
Proof.
  intros [Hm Ht] Hhs. unfold loader_like, try_.
  destruct m as [[a|e|c] t]; simpl in *.
  - split; [intros c; discriminate|exact Ht].
  - destruct (dispatch hs e) as [[o u]|] eqn:D.
    + destruct (loader_like_dispatch hs e _ Hhs D) as [Ho Hu]. simpl in *.
      split; [exact Ho|]. rewrite forallb_app, Ht, Hu. reflexivity.
    + split; [intros c; discriminate|exact Ht].
  - exfalso. exact (Hm c eq_refl).
Qed.

Ltac loader_step :=
  first
    [ apply loader_like_ret
    | apply loader_like_raise
    | apply loader_like_call; reflexivity
    | apply loader_like_call_; reflexivity
    | apply loader_like_bind; [|intros ?]
    | apply loader_like_try;
      [|repeat (apply Forall_cons; [intros ?; cbn [snd]|]); try apply Forall_nil]
    | match goal with |- loader_like (if ?b then _ else _) => destruct b end ].

Section Loaders.

Variable E : Env.

Lemma parse_config_loader_like (p : string) (f : option string) :
  loader_like (parse_config E p f).
Proof. unfold parse_config. repeat loader_step. Qed.

Lemma load_config_loader_like (p : string) (f : option string) :
  loader_like (load_config E p f).
Proof.
  unfold load_config.
  apply loader_like_try.
  - apply loader_like_bind; [apply parse_config_loader_like|].
    intros v. repeat loader_step.
  - repeat (apply Forall_cons; [intros ?; cbn [snd]; repeat loader_step|]).
    apply Forall_nil.
Qed.

Lemma load_schema_loader_like (p : string) : loader_like (load_schema E p).
Proof. unfold load_schema. repeat loader_step. Qed.

End Loaders.

(** ** The validator and the orchestrator, step by step *)

Section Pipeline.

Variable E : Env.

Lemma validate_config_eq (cfg sch : value) :
  validate_config E cfg sch
  = (match validate E cfg sch with
     | None => Return true
     | Some e => Raise (engine_error e)
     end, [EvValidate cfg sch]).
Proof.
  unfold validate_config, engine_error.
  destruct (validate E cfg sch) as [[c s]|]; [destruct c|]; reflexivity.
Qed.

Lemma main_try_eq (a : Args) :
  main_try E a
  = match load_config E (config_file a) (format a) with
    | (Return cfg, t1) =>
        match load_schema E (schema_file a) with
        | (Return sch, t2) =>
            match validate E cfg sch with
            | None =>
                (Return tt,
                 t1 ++ t2 ++ [ EvValidate cfg sch; EvLog INFO valid_message;
                               EvPrint valid_message ])
            | Some e => (Raise (engine_error e), t1 ++ t2 ++ [EvValidate cfg sch])
            end
        | (Raise e, t2) => (Raise e, t1 ++ t2)
        | (Exit c, t2) => (Exit c, t1 ++ t2)
        end
    | (Raise e, t1) => (Raise e, t1)
    | (Exit c, t1) => (Exit c, t1)
    end.
Proof.
  unfold main_try.
  destruct (load_config E (config_file a) (format a)) as [[cfg|e|c] t1];
    try reflexivity.
  cbn [bind].
  destruct (load_schema E (schema_file a)) as [[sch|e|c] t2]; try reflexivity.
  cbn [bind]. rewrite validate_config_eq.
  destruct (validate E cfg sch); reflexivity.
Qed.

(** The line [main] prints for an exception that left the [try] block,
    and the message it logs. *)
Lemma main_eq (a : Args) :
  main E a
  = match main_try E a with
    | (Return u, t) => (Return u, EvSetLevel (log_level a) :: t)
    | (Raise e, t) =>
        (Exit 1%Z,
         EvSetLevel (log_level a) :: t ++
         (if reported_as_error (exc_cls e)
          then [ EvLog ERROR (exc_str e); EvPrint ("Error: " ++ exc_str e) ]
          else [ EvLog ERROR ("An unexpected error occurred: " ++ exc_str e);
                 EvPrint ("An unexpected error occurred: " ++ exc_str e) ]))
    | (Exit c, t) => (Exit c, EvSetLevel (log_level a) :: t)
    end.
Proof.
  unfold main.
  destruct (main_try E a) as [[u|[c s]|c] t]; try reflexivity.
  destruct c; reflexivity.
Qed.

Lemma main_try_never_exits (a : Args) (c : Z) : fst (main_try E a) <> Exit c.
Proof.
  rewrite main_try_eq.
  destruct (load_config_loader_like E (config_file a) (format a)) as [H1 _].
  destruct (load_schema_loader_like E (schema_file a)) as [H2 _].
  destruct (load_config E (config_file a) (format a)) as [[cfg|e|c1] t1];
    simpl in *; try discriminate; [|exfalso; exact (H1 c1 eq_refl)].
  destruct (load_schema E (schema_file a)) as [[sch|e|c2] t2];
    simpl in *; try discriminate; [|exfalso; exact (H2 c2 eq_refl)].
  destruct (validate E cfg sch); discriminate.
Qed.

(** A [try] block that raises has printed and logged nothing. *)
Lemma main_try_raise_quiet (a : Args) (e : exception) :
  fst (main_try E a) = Raise e ->
  forallb is_quiet (snd (main_try E a)) = true.
Proof.
  rewrite main_try_eq.
  destruct (load_config_loader_like E (config_file a) (format a)) as [_ H1].
  destruct (load_schema_loader_like E (schema_file a)) as [_ H2].
  apply io_quiet in H1. apply io_quiet in H2.
  destruct (load_config E (config_file a) (format a)) as [[cfg|e1|c1] t1];
    simpl in *; try discriminate.
  - destruct (load_schema E (schema_file a)) as [[sch|e2|c2] t2];
      simpl in *; try discriminate.
    + destruct (validate E cfg sch); simpl; try discriminate.
      intros _. rewrite !forallb_app, H1, H2. reflexivity.
    + intros _. rewrite !forallb_app, H1, H2. reflexivity.
  - intros _. exact H1.
Qed.

(** [main] ends normally or through [sys.exit(1)]; it never lets an
    exception escape. *)
Lemma main_exit_code (a : Args) :
  exit_code (main E a)
  = match fst (main_try E a) with Return _ => 0%Z | _ => 1%Z end.
Proof.
  unfold exit_code. rewrite main_eq.
  pose proof (main_try_never_exits a) as H.
  destruct (main_try E a) as [[u|e|c] t]; simpl in *; try reflexivity.
  exfalso. exact (H c eq_refl).
Qed.

End Pipeline.

(** ** Exit codes and the messages of a run *)

(** C1.  When the configuration loads, the schema loads and the engine
    reports conformance, [main] prints [Configuration is valid.] and the
    process ends with exit code 0; when the configuration fails to load,
    or the schema fails to load, or the engine raises, the process ends
    with exit code 1. *)
Theorem C1_exit_code_by_outcome (E : Env) (a : Args) :
  match fst (load_config E (config_file a) (format a)) with
  | Return cfg =>
      match fst (load_schema E (schema_file a)) with
      | Return sch =>
          match validate E cfg sch with
          | None =>
              stdout_of (snd (main E a)) = [ "Configuration is valid." ]
              /\ exit_code (main E a) = 0%Z
          | Some _ => exit_code (main E a) = 1%Z
          end
      | _ => exit_code (main E a) = 1%Z
      end
  | _ => exit_code (main E a) = 1%Z
  end.
Proof.
  rewrite main_exit_code, main_eq, main_try_eq.
  destruct (load_config_loader_like E (config_file a) (format a)) as [N1 H1].
  destruct (load_schema_loader_like E (schema_file a)) as [N2 H2].
  apply io_quiet in H1. apply io_quiet in H2.
  destruct (load_config E (config_file a) (format a)) as [[cfg|e|c] t1];
    simpl in *; try reflexivity.
  destruct (load_schema E (schema_file a)) as [[sch|e|c] t2];
    simpl in *; try reflexivity.
  destruct (validate E cfg sch) as [e|]; simpl; [reflexivity|].
  split; [|reflexivity].
  rewrite !stdout_of_app, (quiet_stdout _ H1), (quiet_stdout _ H2).
  reflexivity.
Qed.

(** C2, as stated, fails: a configuration file that cannot be opened for
    lack of permission is a wrapped I/O error, and the line on stdout does
    not start with [Error: ]. *)
Lemma C2_counterexample :
  fst (load_config Demo.world "locked.json" None)
  = Raise (mk_exc Exception
      "Error reading configuration file: [Errno 13] Permission denied: 'locked.json'")
  /\ stdout_of
       (snd (main Demo.world (Demo.args "locked.json" "any.schema" None)))
     = [ "An unexpected error occurred: Error reading configuration file: [Errno 13] Permission denied: 'locked.json'" ]
  /\ prefix "Error: "
       "An unexpected error occurred: Error reading configuration file: [Errno 13] Permission denied: 'locked.json'"
     = false.
Proof. repeat split; reflexivity. Qed.

(** C2, amended.  When the [try] block of [main] raises [e], the process
    ends with exit code 1 and exactly one line is printed and one record
    is handed to the logger at level ERROR.  If [e] is a
    [FileNotFoundError], a [ValueError], a [ValidationError] or a
    [SchemaError], the line is [Error: <message>] and the record is
    [<message>]; for every other exception the line and the record are
    both [An unexpected error occurred: <message>].  The record reaches the
    log stream unless the selected level is CRITICAL. *)
Theorem C2_failure_report (E : Env) (a : Args) (e : exception) :
  fst (main_try E a) = Raise e ->
  exit_code (main E a) = 1%Z
  /\ (if reported_as_error (exc_cls e)
      then stdout_of (snd (main E a)) = [ ("Error: " ++ exc_str e)%string ]
           /\ logged (snd (main E a)) = [ (ERROR, exc_str e) ]
      else stdout_of (snd (main E a))
           = [ ("An unexpected error occurred: " ++ exc_str e)%string ]
           /\ logged (snd (main E a))
              = [ (ERROR, ("An unexpected error occurred: " ++ exc_str e)%string) ])
  /\ surfaced (snd (main E a))
     = (if Z.leb (levelno (log_level a)) (levelno ERROR)
        then logged (snd (main E a)) else []).
Proof.
  intros H. pose proof (main_try_raise_quiet E a e H) as Q.
  rewrite main_exit_code, H, main_eq.
  destruct (main_try E a) as [o t]. simpl in H, Q. subst o.
  split; [reflexivity|].
  unfold surfaced. cbn [snd stdout_of logged log_stream].
  rewrite stdout_of_app, logged_app, (quiet_stdout _ Q), (quiet_logged _ Q).
  rewrite (quiet_log_stream _ _ _ Q).
  destruct (reported_as_error (exc_cls e)); destruct (log_level a);
    repeat split; reflexivity.
Qed.

Lemma C2_failure_report_witness :
  stdout_of (snd (main Demo.world (Demo.args "nope.json" "any.schema" None)))
  = [ "Error: Configuration file not found: nope.json" ]
  /\ logged (snd (main Demo.world (Demo.args "nope.json" "any.schema" None)))
     = [ (ERROR, "Configuration file not found: nope.json") ].
Proof.
  exact (proj1 (proj2
    (C2_failure_report Demo.world (Demo.args "nope.json" "any.schema" None)
       (mk_exc FileNotFoundError "Configuration file not found: nope.json")
       eq_refl))).
Defined.

(** C3, as stated, fails: the message of the exception that
    [validate_config] raises is not the engine's message. *)
Lemma C3_counterexample :
  validate Demo.world (VList [VInt 1; VInt 2]) Demo.type_object
  = Some (mk_exc ValidationError Demo.not_an_object)
  /\ fst (validate_config Demo.world (VList [VInt 1; VInt 2]) Demo.type_object)
     = Raise (mk_exc ValidationError
                ("Configuration validation error: " ++ Demo.not_an_object)%string)
  /\ String.eqb ("Configuration validation error: " ++ Demo.not_an_object)%string
       Demo.not_an_object = false.
Proof. repeat split; reflexivity. Qed.

(** C3, amended.  When the engine raises a [ValidationError] with message
    [m], [validate_config] raises a [ValidationError] whose message is
    [Configuration validation error: ] followed by [m], unchanged. *)
Theorem C3_violation_message (E : Env) (cfg sch : value) (e : exception) :
  validate E cfg sch = Some e ->
  exc_cls e = ValidationError ->
  validate_config E cfg sch
  = (Raise (mk_exc ValidationError
              ("Configuration validation error: " ++ exc_str e)%string),
     [EvValidate cfg sch]).
Proof.
  intros H C. rewrite validate_config_eq, H.
  unfold engine_error. rewrite C. reflexivity.
Qed.

Lemma C3_violation_message_witness :
  validate_config Demo.world (VList [VInt 1; VInt 2]) Demo.type_object
  = (Raise (mk_exc ValidationError
              ("Configuration validation error: " ++ Demo.not_an_object)%string),
     [EvValidate (VList [VInt 1; VInt 2]) Demo.type_object]).
Proof.
  exact (C3_violation_message Demo.world (VList [VInt 1; VInt 2])
           Demo.type_object (mk_exc ValidationError Demo.not_an_object)
           eq_refl eq_refl).
Defined.

(** ** The document loader *)

Section DocumentLoader.

Variable E : Env.

Lemma format_determined_split (p : string) (f : option string) :
  format_determined p f = selects_json p f || selects_yaml p f.
Proof.
  unfold format_determined, selects_json, selects_yaml.
  destruct (format_is f "json"), (format_is f "yaml"), (is_None f),
    (endswith p ".json"), (endswith p ".yaml"), (endswith p ".yml");
    reflexivity.
Qed.

Lemma parse_config_branches (p : string) (f : option string) :
  parse_config E p f
  = (call_ (EvOpen p) (fs_open E p) ;;;
     if selects_json p f
     then
       try_ (call (EvJsonLoad p) (json_load E p))
         [ (JSONDecodeError, fun e =>
              raise (mk_exc ValueError
                ("Invalid JSON format in " ++ p ++ ": " ++ exc_str e))) ]
     else if selects_yaml p f
     then
       try_ (call (EvYamlLoad p) (yaml_load E p))
         [ (YAMLError, fun e =>
              raise (mk_exc ValueError
                ("Invalid YAML format in " ++ p ++ ": " ++ exc_str e))) ]
     else
       content <- call (EvRead p) (fs_read E p) ;;
       if is_empty_string (strip content)
       then raise (mk_exc ValueError
                     ("Configuration file " ++ p ++ " is empty."))
       else
         try_ (call (EvJsonLoads content) (json_loads E content))
           [ (JSONDecodeError, fun _ =>
                try_ (call (EvYamlLoads content) (yaml_safe_load E content))
                  [ (YAMLError, fun _ =>
                       raise (mk_exc ValueError
                         ("Could not determine format of " ++ p
                          ++ ".  Please specify format using -f/--format."))) ]) ]).
Proof. reflexivity. Qed.

(** Whatever path the loader takes, a parsed document is what one of the
    two parsers made of the text of the file. *)
Lemma parse_config_returns (p : string) (f : option string) (v : value) :
  fst (parse_config E p f) = Return v ->
  exists c, fs_read E p = inr c
            /\ (json_loads E c = inr v \/ yaml_safe_load E c = inr v).
Proof.
  rewrite parse_config_branches. unfold call_, call, json_load, yaml_load.
  destruct (fs_open E p) as [e0|]; [discriminate|].
  destruct (selects_json p f); [|destruct (selects_yaml p f)];
    destruct (fs_read E p) as [e1|c]; cbn [bind fst];
    try (destruct e1 as [k s]; destruct k; discriminate).
  - destruct (json_loads E c) as [[k s]|w] eqn:J;
      [destruct k; discriminate|].
    cbn. intros [= ->]. exists c. auto.
  - destruct (yaml_safe_load E c) as [[k s]|w] eqn:Y;
      [destruct k; discriminate|].
    cbn. intros [= ->]. exists c. auto.
  - destruct (is_empty_string (strip c)); [discriminate|].
    destruct (json_loads E c) as [[k s]|w] eqn:J.
    + destruct (yaml_safe_load E c) as [[k' s']|w] eqn:Y.
      * destruct k, k'; discriminate.
      * destruct k; cbn; try discriminate.
        intros [= ->]. exists c. auto.
    + cbn. intros [= ->]. exists c. auto.
Qed.

(** The emptiness test that follows the [with] block. *)
Lemma load_config_after_parse (p : string) (f : option string) (v : value) :
  fst (parse_config E p f) = Return v ->
  load_config E p f
  = (if truthy v then Return v
     else Raise (mk_exc ValueError
                   ("Configuration file " ++ p
                    ++ " is empty or contains no data.")),
     snd (parse_config E p f)).
Proof.
  unfold load_config.
  destruct (parse_config E p f) as [[w|e|c] t]; cbn [fst snd];
    try discriminate.
  intros [= ->]. cbn [bind].
  destruct (truthy v); cbn; rewrite !app_nil_r; reflexivity.
Qed.

Lemma load_config_returns (p : string) (f : option string) (w : value) :
  fst (load_config E p f) = Return w ->
  fst (parse_config E p f) = Return w /\ truthy w = true.
Proof.
  destruct (fst (parse_config E p f)) as [v|[k s]|c] eqn:P.
  - rewrite (load_config_after_parse p f v P). cbn [fst].
    destruct (truthy v) eqn:T; [|discriminate].
    intros [= <-]. split; [reflexivity|exact T].
  - unfold load_config.
    destruct (parse_config E p f) as [o t]. cbn [fst] in P. subst o.
    destruct k; discriminate.
  - unfold load_config.
    destruct (parse_config E p f) as [o t]. cbn [fst] in P. subst o.
    discriminate.
Qed.

(** The autodetection path on a blank file. *)
Lemma load_config_autodetect_blank (p : string) (f : option string) (c : string) :
  format_determined p f = false ->
  fs_open E p = None ->
  fs_read E p = inr c ->
  whitespace_only c = true ->
  load_config E p f
  = (Raise (mk_exc ValueError ("Configuration file " ++ p ++ " is empty.")),
     [EvOpen p; EvRead p]).
Proof.
  intros D O R W. rewrite format_determined_split in D.
  apply orb_false_iff in D as [DJ DY].
  apply strip_empty_iff in W.
  unfold load_config. rewrite parse_config_branches, DJ, DY.
  unfold call_, call. rewrite O, R. cbn [bind]. rewrite W. reflexivity.
Qed.

(** The JSON path on text that is not JSON. *)
Lemma load_config_json_syntax_error (p : string) (f : option string)
    (c : string) (e : exception) :
  selects_json p f = true ->
  fs_open E p = None ->
  fs_read E p = inr c ->
  json_loads E c = inl e ->
  exc_cls e = JSONDecodeError ->
  load_config E p f
  = (Raise (mk_exc ValueError
              ("Invalid JSON format in " ++ p ++ ": " ++ exc_str e)),
     [EvOpen p; EvJsonLoad p]).
Proof.
  intros S O R J K.
  unfold load_config. rewrite parse_config_branches, S.
  unfold call_, call, json_load. rewrite O, R, J.
  destruct e as [k s]. cbn in K. subst k. reflexivity.
Qed.

(** With a hint or a telling extension the text is never sniffed. *)
Lemma load_config_no_autodetect (p : string) (f : option string) :
  format_determined p f = true ->
  autodetect_attempted (snd (load_config E p f)) = false.
Proof.
  rewrite format_determined_split. intros D.
  unfold load_config. rewrite parse_config_branches.
  unfold call_, call, json_load, yaml_load.
  destruct (fs_open E p) as [[k0 s0]|]; [destruct k0; reflexivity|].
  destruct (selects_json p f); [|destruct (selects_yaml p f)];
    try discriminate.
  - destruct (fs_read E p) as [[k s]|c]; [destruct k; reflexivity|].
    destruct (json_loads E c) as [[k s]|v]; [destruct k; reflexivity|].
    cbn. destruct (truthy v); reflexivity.
  - destruct (fs_read E p) as [[k s]|c]; [destruct k; reflexivity|].
    destruct (yaml_safe_load E c) as [[k s]|v]; [destruct k; reflexivity|].
    cbn. destruct (truthy v); reflexivity.
Qed.

End DocumentLoader.

Section Orchestrator.

Variable E : Env.

(** What [main] writes to stdout, by the outcome of its [try] block. *)
Lemma main_stdout (a : Args) :
  stdout_of (snd (main E a))
  = match fst (main_try E a) with
    | Return _ => [ valid_message ]
    | Raise e =>
        [ if reported_as_error (exc_cls e)
          then ("Error: " ++ exc_str e)%string
          else ("An unexpected error occurred: " ++ exc_str e)%string ]
    | Exit _ => []
    end.
Proof.
  pose proof (main_try_never_exits E a) as N.
  destruct (fst (main_try E a)) as [u|e|c] eqn:T.
  - rewrite main_eq. rewrite main_try_eq in *.
    destruct (load_config_loader_like E (config_file a) (format a)) as [_ H1].
    destruct (load_schema_loader_like E (schema_file a)) as [_ H2].
    apply io_quiet in H1. apply io_quiet in H2.
    destruct (load_config E (config_file a) (format a)) as [[cfg|e|c] t1];
      cbn [fst snd] in *; try discriminate.
    destruct (load_schema E (schema_file a)) as [[sch|e|c] t2];
      cbn [fst snd] in *; try discriminate.
    destruct (validate E cfg sch); cbn [fst snd] in *; try discriminate.
    cbn [stdout_of].
    rewrite !stdout_of_app, (quiet_stdout _ H1), (quiet_stdout _ H2).
    reflexivity.
  - pose proof (main_try_raise_quiet E a e T) as Q.
    rewrite main_eq. destruct (main_try E a) as [o t].
    cbn [fst snd] in *. subst o. cbn [snd stdout_of].
    rewrite stdout_of_app, (quiet_stdout _ Q).
    destruct (reported_as_error (exc_cls e)); reflexivity.
  - exfalso. exact (N c eq_refl).
Qed.

Lemma load_schema_parsed (path c : string) (v : value) :
  fs_open E path = None ->
  fs_read E path = inr c ->
  json_loads E c = inr v ->
  load_schema E path = (Return v, [EvOpen path; EvJsonLoad path]).
Proof.
  intros O R J. unfold load_schema, call_, call, json_load.
  rewrite O, R, J. reflexivity.
Qed.

Lemma load_schema_json_only (path : string) :
  existsb (fun ev => is_yaml ev || is_autodetect ev) (snd (load_schema E path))
  = false.
Proof.
  unfold load_schema, call_, call, json_load.
  destruct (fs_open E path) as [[k s]|]; [destruct k; reflexivity|].
  destruct (fs_read E path) as [[k s]|c]; [destruct k; reflexivity|].
  destruct (json_loads E c) as [[k s]|v]; [destruct k; reflexivity|].
  reflexivity.
Qed.

(** The classes of the exceptions each step can raise. *)
Lemma load_config_raise_class (p : string) (f : option string) (e : exception) :
  fst (load_config E p f) = Raise e ->
  exc_cls e = FileNotFoundError
  \/ issubclass (exc_cls e) ValueError = true
  \/ exc_cls e = Exception.
Proof.
  unfold load_config.
  destruct (parse_config E p f) as [[v|[k s]|c] t]; cbn [bind].
  - destruct (truthy v); cbn; [discriminate|].
    intros [= <-]. right. left. reflexivity.
  - destruct k; cbn; intros [= <-]; cbn; auto.
  - discriminate.
Qed.

Lemma load_schema_raise_class (p : string) (e : exception) :
  fst (load_schema E p) = Raise e ->
  exc_cls e = FileNotFoundError \/ exc_cls e = Exception.
Proof.
  unfold load_schema, call_, call, json_load.
  destruct (fs_open E p) as [[k s]|];
    [destruct k; cbn; intros [= <-]; cbn; auto|].
  destruct (fs_read E p) as [[k s]|c];
    [destruct k; cbn; intros [= <-]; cbn; auto|].
  destruct (json_loads E c) as [[k s]|v];
    [destruct k; cbn; intros [= <-]; cbn; auto|discriminate].
Qed.

Lemma engine_error_reported (e : exception) :
  reported_as_error (exc_cls (engine_error e))
  = issubclass (exc_cls e) ValidationError || issubclass (exc_cls e) SchemaError.
Proof. destruct e as [k s]. destruct k; reflexivity. Qed.

End Orchestrator.

(** C4, as stated, fails twice.  An empty file named [empty.json] is
    turned down with the JSON parser's syntax error, not with the
    [is empty] line.  And a file named [blank.yaml] that holds only a
    no-break space is white space only, yet it loads: the engine is called
    and the run ends with exit code 0. *)
Lemma C4_counterexample :
  fs_open Demo.world "empty.json" = None
  /\ fs_read Demo.world "empty.json" = inr EmptyString
  /\ stdout_of
       (snd (main Demo.world (Demo.args "empty.json" "any.schema" None)))
     = [ "Error: Invalid JSON format in empty.json: Expecting value: line 1 column 1 (char 0)" ]
  /\ String.eqb
       "Error: Invalid JSON format in empty.json: Expecting value: line 1 column 1 (char 0)"
       "Error: Configuration file empty.json is empty."
     = false
  /\ fs_read Variants.nbsp_yaml "blank.yaml" = inr Variants.nbsp
  /\ whitespace_only Variants.nbsp = true
  /\ validator_invoked
       (snd (main Variants.nbsp_yaml (Demo.args "blank.yaml" "any.schema" None)))
     = true
  /\ exit_code (main Variants.nbsp_yaml (Demo.args "blank.yaml" "any.schema" None))
     = 0%Z.
Proof. repeat split; reflexivity. Qed.

(** C5.  On every path of the loader -- hint [json], hint [yaml],
    extension, or autodetection -- a parsed value that is falsy (empty
    mapping, empty sequence, null, empty string, zero, false) makes
    [load_config] raise the [is empty or contains no data] error instead of
    returning it, and a truthy one is returned; so every value
    [load_config] returns is truthy. *)
Theorem C5_loader_returns_truthy (E : Env) (p : string) (f : option string)
    (v : value) :
  fst (parse_config E p f) = Return v ->
  fst (load_config E p f)
  = (if truthy v then Return v
     else Raise (mk_exc ValueError
                   ("Configuration file " ++ p
                    ++ " is empty or contains no data.")))
  /\ (forall w, fst (load_config E p f) = Return w -> truthy w = true).
Proof.
  intros P. split.
  - rewrite (load_config_after_parse E p f v P). reflexivity.
  - intros w L. exact (proj2 (load_config_returns E p f w L)).
Qed.

Lemma C5_loader_returns_truthy_witness :
  fst (parse_config Demo.world "zero.json" None) = Return (VInt 0)
  /\ fst (load_config Demo.world "zero.json" None)
     = Raise (mk_exc ValueError
                "Configuration file zero.json is empty or contains no data.").
Proof.
  split; [reflexivity|].
  exact (proj1 (C5_loader_returns_truthy Demo.world "zero.json" None (VInt 0)
                  eq_refl)).
Defined.

(** C6.  A file whose name ends in [.json], loaded without a hint, whose
    text the JSON parser rejects with a [JSONDecodeError] -- YAML text,
    for one -- makes [load_config] raise the invalid-JSON [ValueError]
    after one [json.load]; and whenever a hint [json] or [yaml] is given or
    the name ends in [.json], [.yaml] or [.yml], the loader performs none
    of the autodetection steps. *)
Theorem C6_extension_wins (E : Env) (p c : string) (e : exception) :
  endswith p ".json" = true ->
  fs_open E p = None ->
  fs_read E p = inr c ->
  json_loads E c = inl e ->
  exc_cls e = JSONDecodeError ->
  load_config E p None
  = (Raise (mk_exc ValueError
              ("Invalid JSON format in " ++ p ++ ": " ++ exc_str e)),
     [EvOpen p; EvJsonLoad p])
  /\ (forall q f, format_determined q f = true ->
        autodetect_attempted (snd (load_config E q f)) = false).
Proof.
  intros X O R J K. split.
  - apply (load_config_json_syntax_error E p None c e); trivial.
  - intros q f. apply load_config_no_autodetect.
Qed.

Lemma C6_extension_wins_witness :
  yaml_safe_load Demo.world "a: 1" = inr (VDict [(VStr "a", VInt 1)])
  /\ load_config Demo.world "settings.json" None
     = (Raise (mk_exc ValueError
         "Invalid JSON format in settings.json: Expecting value: line 1 column 1 (char 0)"),
        [EvOpen "settings.json"; EvJsonLoad "settings.json"])
  /\ autodetect_attempted
       (snd (load_config Demo.world "settings.conf" (Some "yaml"))) = false.
Proof.
  split; [reflexivity|].
  destruct (C6_extension_wins Demo.world "settings.json" "a: 1"
              (mk_exc JSONDecodeError "Expecting value: line 1 column 1 (char 0)")
              eq_refl eq_refl eq_refl eq_refl eq_refl) as [H1 H2].
  split; [exact H1|].
  exact (H2 "settings.conf" (Some "yaml") eq_refl).
Defined.

(** C7.  Whatever the name of the schema file, [load_schema] opens it and
    parses it with [json.load] only -- no YAML call, no autodetection --
    and returns the parsed value without any emptiness test: a falsy value
    such as the empty object is returned and [main] hands it to the
    engine. *)
Theorem C7_schema_json_only (E : Env) (path c : string) (v : value) :
  fs_open E path = None ->
  fs_read E path = inr c ->
  json_loads E c = inr v ->
  load_schema E path = (Return v, [EvOpen path; EvJsonLoad path])
  /\ (forall q,
        existsb (fun ev => is_yaml ev || is_autodetect ev)
          (snd (load_schema E q)) = false)
  /\ (forall a cfg,
        schema_file a = path ->
        fst (load_config E (config_file a) (format a)) = Return cfg ->
        In (EvValidate cfg v) (snd (main E a))).
Proof.
  intros O R J.
  pose proof (load_schema_parsed E path c v O R J) as S.
  split; [exact S|]. split; [apply load_schema_json_only|].
  intros a cfg <- L.
  rewrite main_eq, main_try_eq, S.
  destruct (load_config E (config_file a) (format a)) as [o t1].
  cbn [fst] in L. subst o.
  destruct (validate E cfg v); cbn [snd]; right; rewrite !in_app_iff;
    simpl; tauto.
Qed.

Lemma C7_schema_json_only_witness :
  load_schema Demo.world "any.schema"
  = (Return (VDict []), [EvOpen "any.schema"; EvJsonLoad "any.schema"])
  /\ In (EvValidate (VList [VInt 1; VInt 2]) (VDict []))
        (snd (main Demo.world (Demo.args "conf.json" "any.schema" None))).
Proof.
  destruct (C7_schema_json_only Demo.world "any.schema" "{}" (VDict [])
              eq_refl eq_refl eq_refl) as (H1 & _ & H3).
  split; [exact H1|].
  exact (H3 (Demo.args "conf.json" "any.schema" None) (VList [VInt 1; VInt 2])
            eq_refl eq_refl).
Defined.

(** C8.  For a file whose name ends in [.json], loading with the hint
    [json] and loading without a hint give the same result -- the same
    document or the same exception, after the same calls -- and so the
    whole run is the same. *)
Theorem C8_json_hint_idempotent (E : Env) (p : string) :
  endswith p ".json" = true ->
  load_config E p (Some "json") = load_config E p None
  /\ (forall a, config_file a = p ->
        main E (with_format a (Some "json")) = main E (with_format a None)).
Proof.
  intros X.
  assert (L : load_config E p (Some "json") = load_config E p None).
  { unfold load_config. rewrite !parse_config_branches.
    unfold selects_json. cbn [format_is is_None]. rewrite X. reflexivity. }
  split; [exact L|].
  intros a <-. unfold main, main_try, with_format.
  cbn [config_file schema_file format log_level]. rewrite L. reflexivity.
Qed.

Lemma C8_json_hint_idempotent_witness :
  load_config Demo.world "conf.json" (Some "json")
  = load_config Demo.world "conf.json" None.
Proof.
  exact (proj1 (C8_json_hint_idempotent Demo.world "conf.json" eq_refl)).
Defined.

(** C9.  Two runs that differ only in the log level reach the same
    verdict, end with the same exit code and print the same lines. *)
Theorem C9_log_level_irrelevant (E : Env) (a : Args) (l1 l2 : level) :
  fst (main_try E (with_log_level a l1)) = fst (main_try E (with_log_level a l2))
  /\ exit_code (main E (with_log_level a l1))
     = exit_code (main E (with_log_level a l2))
  /\ stdout_of (snd (main E (with_log_level a l1)))
     = stdout_of (snd (main E (with_log_level a l2))).
Proof.
  assert (T : forall l, main_try E (with_log_level a l) = main_try E a)
    by reflexivity.
  split; [|split].
  - rewrite !T. reflexivity.
  - rewrite !main_exit_code, !T. reflexivity.
  - rewrite !main_stdout, !T. reflexivity.
Qed.

(** The level does change what reaches the log stream. *)
Example log_level_changes_log_stream :
  surfaced (snd (main Demo.world
     (with_log_level (Demo.args "nope.json" "any.schema" None) ERROR)))
  = [ (ERROR, "Configuration file not found: nope.json") ]
  /\ surfaced (snd (main Demo.world
       (with_log_level (Demo.args "nope.json" "any.schema" None) CRITICAL)))
     = [].
Proof. split; reflexivity. Qed.

(** C10.  When [validate_config] returns, it returns [True]; and no run of
    [main] prints the line of its [else] branch. *)
Theorem C10_validate_config_never_false (E : Env) (cfg sch : value) (b : bool) :
  fst (validate_config E cfg sch) = Return b ->
  b = true
  /\ (forall a,
        existsb (String.eqb fallback_message) (stdout_of (snd (main E a)))
        = false).
Proof.
  intros H. split.
  - rewrite validate_config_eq in H. cbn [fst] in H.
    destruct (validate E cfg sch); [discriminate|].
    injection H as <-. reflexivity.
  - intros a. rewrite main_stdout.
    destruct (fst (main_try E a)) as [u|e|c]; try reflexivity.
    destruct (reported_as_error (exc_cls e)); reflexivity.
Qed.

Lemma C10_validate_config_never_false_witness :
  fst (validate_config Demo.world (VList [VInt 1; VInt 2]) (VDict []))
  = Return true
  /\ existsb (String.eqb fallback_message)
       (stdout_of (snd (main Demo.world
          (Demo.args "conf.json" "object.schema" None))))
     = false.
Proof.
  split; [reflexivity|].
  exact (proj2 (C10_validate_config_never_false Demo.world
                  (VList [VInt 1; VInt 2]) (VDict []) true eq_refl)
           (Demo.args "conf.json" "object.schema" None)).
Defined.

(** * Further properties of the script *)

(** ** File names: the two extension tests *)

Lemma substring_tail (p : string) :
  forall k m c s,
    substring k (S m) p = String c s -> substring (S k) m p = s.
Proof.
  induction p as [|c' p IH]; intros k m c s.
  - destruct k; discriminate.
  - destruct k as [|k].
    + cbn. intros [= _ H]. destruct p; exact H.
    + cbn [substring]. intros H. apply IH in H.
      destruct p; exact H.
Qed.

(** A name that ends in [c :: s] ends in [s]. *)
Lemma endswith_tail (p : string) (c : ascii) (s : string) :
  endswith p (String c s) = true -> endswith p s = true.
Proof.
  unfold endswith. cbn [String.length].
  destruct (Nat.leb (S (String.length s)) (String.length p)) eqn:L;
    [|discriminate].
  apply Nat.leb_le in L. intros H. apply String.eqb_eq in H.
  apply substring_tail in H.
  replace (S (String.length p - S (String.length s)))
    with (String.length p - String.length s) in H by lia.
  assert (L' : Nat.leb (String.length s) (String.length p) = true)
    by (apply Nat.leb_le; lia).
  rewrite L', H. apply String.eqb_refl.
Qed.

(** Two different suffixes of the same length cannot both end a name. *)
Lemma endswith_same_length (p s t : string) :
  String.length s = String.length t ->
  endswith p s = true -> endswith p t = true -> s = t.
Proof.
  unfold endswith. intros <-.
  destruct (Nat.leb (String.length s) (String.length p)); [|discriminate].
  intros H1 H2. apply String.eqb_eq in H1, H2. congruence.
Qed.

Lemma json_name_is_not_yaml (p : string) :
  endswith p ".json" = true ->
  endswith p ".yaml" = false /\ endswith p ".yml" = false.
Proof.
  intros J. split.
  - destruct (endswith p ".yaml") eqn:Y; [|reflexivity].
    pose proof (endswith_same_length p ".json" ".yaml" eq_refl J Y) as H.
    discriminate H.
  - destruct (endswith p ".yml") eqn:Y; [|reflexivity].
    apply endswith_tail in J.
    pose proof (endswith_same_length p "json" ".yml" eq_refl J Y) as H.
    discriminate H.
Qed.

(** The two tests of [load_config] never hold together. *)
Lemma selects_yaml_not_json (p : string) (f : option string) :
  selects_yaml p f = true -> selects_json p f = false.
Proof.
  unfold selects_yaml, selects_json.
  destruct f as [s|]; cbn [format_is is_None andb orb].
  - rewrite !orb_false_r. intros H. apply String.eqb_eq in H. subst s.
    reflexivity.
  - destruct (endswith p ".json") eqn:J; [|reflexivity].
    destruct (json_name_is_not_yaml p J) as [-> ->]. discriminate.
Qed.

(** ** [load_config]: failures of the file system *)

(** X1.  When the configuration file does not exist, whatever the hint,
    the whole run is: set the level, try to open the file, log and print
    [Configuration file not found: <path>] (the operating system's own
    message is dropped), exit with code 1.  The schema file is not
    touched. *)
Theorem X1_missing_config_run (E : Env) (a : Args) (e0 : exception) :
  fs_open E (config_file a) = Some e0 ->
  exc_cls e0 = FileNotFoundError ->
  main E a
  = (Exit 1%Z,
     [ EvSetLevel (log_level a);
       EvOpen (config_file a);
       EvLog ERROR ("Configuration file not found: " ++ config_file a)%string;
       EvPrint ("Error: Configuration file not found: " ++ config_file a)%string ]).
Proof.
  intros O K. destruct e0 as [k s]. cbn in K. subst k.
  unfold main, main_try, load_config. rewrite parse_config_branches.
  unfold call_. rewrite O. reflexivity.
Qed.

Lemma X1_missing_config_run_witness :
  main Demo.world (Demo.args "nope.json" "any.schema" (Some "yaml"))
  = (Exit 1%Z,
     [ EvSetLevel INFO; EvOpen "nope.json";
       EvLog ERROR "Configuration file not found: nope.json";
       EvPrint "Error: Configuration file not found: nope.json" ]).
Proof.
  exact (X1_missing_config_run Demo.world
           (Demo.args "nope.json" "any.schema" (Some "yaml"))
           (Demo.no_such_file "nope.json") eq_refl eq_refl).
Defined.

(** X2.  When the opened file cannot be read, on every path of the
    loader: a [FileNotFoundError] becomes the [not found] error, a
    [ValueError] such as [UnicodeDecodeError] leaves [load_config] as the
    very same exception, and anything else is wrapped into a plain
    [Exception] whose message is [Error reading configuration file: ]
    followed by the original message. *)
Theorem X2_read_failure (E : Env) (p : string) (f : option string)
    (e : exception) :
  fs_open E p = None ->
  fs_read E p = inl e ->
  exc_cls e <> JSONDecodeError ->
  exc_cls e <> YAMLError ->
  fst (load_config E p f)
  = Raise (if issubclass (exc_cls e) FileNotFoundError
           then mk_exc FileNotFoundError
                  ("Configuration file not found: " ++ p)
           else if issubclass (exc_cls e) ValueError
           then e
           else mk_exc Exception
                  ("Error reading configuration file: " ++ exc_str e)).
Proof.
  intros O R NJ NY. destruct e as [k s]. cbn in NJ, NY.
  unfold load_config. rewrite parse_config_branches.
  unfold call_, call, json_load, yaml_load. rewrite O, R.
  destruct (selects_json p f); [|destruct (selects_yaml p f)];
    destruct k; try reflexivity; contradiction.
Qed.

Lemma X2_read_failure_witness :
  fst (load_config Variants.binary_files "conf.json" None)
  = Raise Variants.undecodable
  /\ fst (load_config Variants.broken_disk "conf" None)
     = Raise (mk_exc Exception
                "Error reading configuration file: [Errno 21] Is a directory").
Proof.
  split.
  - apply (X2_read_failure Variants.binary_files "conf.json" None
             Variants.undecodable); [reflexivity|reflexivity| |];
      intros H; discriminate H.
  - apply (X2_read_failure Variants.broken_disk "conf" None
             Variants.is_a_directory); [reflexivity|reflexivity| |];
      intros H; discriminate H.
Defined.

(** ** [load_config]: the YAML path and the hint *)

(** X3.  On the YAML path (hint [yaml], or no hint and a name ending in
    [.yaml] or [.yml]) a [YAMLError] of the parser becomes the
    [ValueError] [Invalid YAML format in <path>: <parser message>], after
    one [yaml.safe_load] on the file and no other call. *)
Theorem X3_yaml_syntax_error (E : Env) (p : string) (f : option string)
    (c : string) (e : exception) :
  selects_yaml p f = true ->
  fs_open E p = None ->
  fs_read E p = inr c ->
  yaml_safe_load E c = inl e ->
  exc_cls e = YAMLError ->
  load_config E p f
  = (Raise (mk_exc ValueError
              ("Invalid YAML format in " ++ p ++ ": " ++ exc_str e)),
     [EvOpen p; EvYamlLoad p]).
Proof.
  intros S O R Y K. pose proof (selects_yaml_not_json p f S) as NJ.
  unfold load_config. rewrite parse_config_branches, NJ, S.
  unfold call_, call, yaml_load. rewrite O, R, Y.
  destruct e as [k s]. cbn in K. subst k. reflexivity.
Qed.

Lemma X3_yaml_syntax_error_witness :
  load_config Variants.unparsable "deploy.yml" None
  = (Raise (mk_exc ValueError
              "Invalid YAML format in deploy.yml: while parsing a flow node"),
     [EvOpen "deploy.yml"; EvYamlLoad "deploy.yml"]).
Proof.
  exact (X3_yaml_syntax_error Variants.unparsable "deploy.yml" None "{"
           (mk_exc YAMLError "while parsing a flow node")
           eq_refl eq_refl eq_refl eq_refl eq_refl).
Defined.

(** X4.  A hint decides the parser whatever the file is called: with the
    hint [yaml] the result of [load_config] does not depend on the JSON
    parser, and with the hint [json] it does not depend on the YAML
    parser. *)
Theorem X4_hint_decides_parser (E1 E2 : Env) (p : string) :
  fs_open E1 p = fs_open E2 p ->
  fs_read E1 p = fs_read E2 p ->
  ((forall c, yaml_safe_load E1 c = yaml_safe_load E2 c) ->
   load_config E1 p (Some "yaml") = load_config E2 p (Some "yaml"))
  /\ ((forall c, json_loads E1 c = json_loads E2 c) ->
      load_config E1 p (Some "json") = load_config E2 p (Some "json")).
Proof.
  intros O R. split; intros P; unfold load_config;
    rewrite !parse_config_branches;
    unfold selects_json, selects_yaml;
    cbn [format_is is_None andb orb String.eqb Ascii.eqb Bool.eqb];
    unfold call_, call, json_load, yaml_load; rewrite O, R;
    destruct (fs_read E2 p) as [e|c]; try rewrite P; reflexivity.
Qed.

Lemma X4_hint_decides_parser_witness :
  load_config Demo.world "settings.json" (Some "yaml")
  = load_config Variants.other_json "settings.json" (Some "yaml")
  /\ load_config Demo.world "conf.txt" (Some "json")
     = load_config Variants.other_yaml "conf.txt" (Some "json").
Proof.
  destruct (X4_hint_decides_parser Demo.world Variants.other_json
              "settings.json" eq_refl eq_refl) as [HY _].
  destruct (X4_hint_decides_parser Demo.world Variants.other_yaml
              "conf.txt" eq_refl eq_refl) as [_ HJ].
  split; [apply HY|apply HJ]; intros c; reflexivity.
Defined.

(** ** [load_config]: autodetection from the text *)

Section Autodetection.

Variable E : Env.
Variables (p : string) (f : option string) (c : string).

Hypothesis undetermined : format_determined p f = false.
Hypothesis opens : fs_open E p = None.
Hypothesis reads : fs_read E p = inr c.
Hypothesis not_blank : whitespace_only c = false.

(** The loader on this path, once the text is known not to be blank. *)
Lemma load_config_autodetect :
  load_config E p f
  = try_
      (config_data <-
         (call_ (EvOpen p) None ;;;
          content <- call (EvRead p) (inr c) ;;
          try_ (call (EvJsonLoads content) (json_loads E content))
            [ (JSONDecodeError, fun _ =>
                 try_ (call (EvYamlLoads content) (yaml_safe_load E content))
                   [ (YAMLError, fun _ =>
                        raise (mk_exc ValueError
                          ("Could not determine format of " ++ p
                           ++ ".  Please specify format using -f/--format."))) ]) ]) ;;
       if negb (truthy config_data)
       then raise (mk_exc ValueError
                     ("Configuration file " ++ p
                      ++ " is empty or contains no data."))
       else ret config_data)
      [ (FileNotFoundError, fun _ =>
           raise (mk_exc FileNotFoundError
                    ("Configuration file not found: " ++ p)));
        (ValueError, fun e => raise e);
        (Exception, fun e =>
           raise (mk_exc Exception
                    ("Error reading configuration file: " ++ exc_str e))) ].
Proof.
  pose proof undetermined as D. rewrite format_determined_split in D.
  apply orb_false_iff in D as [DJ DY].
  assert (S : is_empty_string (strip c) = false).
  { destruct (is_empty_string (strip c)) eqn:S; [|reflexivity].
    apply strip_empty_iff in S. rewrite S in not_blank. discriminate. }
  unfold load_config. rewrite parse_config_branches, DJ, DY, opens, reads.
  cbn [call_ call bind]. rewrite S. reflexivity.
Qed.

Lemma autodetect_json_first (v : value) :
  json_loads E c = inr v ->
  load_config E p f
  = (if truthy v then Return v
     else Raise (mk_exc ValueError
                   ("Configuration file " ++ p
                    ++ " is empty or contains no data.")),
     [EvOpen p; EvRead p; EvJsonLoads c]).
Proof.
  intros J. rewrite load_config_autodetect. cbn [call_ call bind].
  rewrite J. cbn. destruct (truthy v); reflexivity.
Qed.

Lemma autodetect_yaml_fallback (e : exception) (v : value) :
  json_loads E c = inl e ->
  exc_cls e = JSONDecodeError ->
  yaml_safe_load E c = inr v ->
  load_config E p f
  = (if truthy v then Return v
     else Raise (mk_exc ValueError
                   ("Configuration file " ++ p
                    ++ " is empty or contains no data.")),
     [EvOpen p; EvRead p; EvJsonLoads c; EvYamlLoads c]).
Proof.
  intros J K Y. rewrite load_config_autodetect. cbn [call_ call bind].
  rewrite J. destruct e as [k s]. cbn in K. subst k.
  cbn. rewrite Y. cbn. destruct (truthy v); reflexivity.
Qed.

Lemma autodetect_undetermined (e e' : exception) :
  json_loads E c = inl e ->
  exc_cls e = JSONDecodeError ->
  yaml_safe_load E c = inl e' ->
  exc_cls e' = YAMLError ->
  load_config E p f
  = (Raise (mk_exc ValueError
              ("Could not determine format of " ++ p
               ++ ".  Please specify format using -f/--format.")),
     [EvOpen p; EvRead p; EvJsonLoads c; EvYamlLoads c]).
Proof.
  intros J K Y K'. rewrite load_config_autodetect. cbn [call_ call bind].
  rewrite J. destruct e as [k s]. cbn in K. subst k.
  cbn. rewrite Y. destruct e' as [k' s']. cbn in K'. subst k'. reflexivity.
Qed.

Lemma autodetect_yaml_trial :
  existsb is_yaml (snd (load_config E p f))
  = match json_loads E c with
    | inl e => issubclass (exc_cls e) JSONDecodeError
    | inr _ => false
    end.
Proof.
  rewrite load_config_autodetect. cbn [call_ call bind].
  destruct (json_loads E c) as [[k s]|v].
  - destruct k; cbn; try reflexivity.
    destruct (yaml_safe_load E c) as [[k' s']|w].
    + destruct k'; reflexivity.
    + cbn. destruct (truthy w); reflexivity.
  - cbn. destruct (truthy v); reflexivity.
Qed.

End Autodetection.

(** X5.  Without a hint or a telling extension, a text that is not blank
    and that the JSON parser accepts is taken as JSON: after open, read
    and one [json.loads] the loader returns the parsed value (or rejects
    it as empty when it is falsy); the YAML parser is not consulted, even
    if the text is YAML as well. *)
Theorem X5_autodetect_json_first (E : Env) (p : string) (f : option string)
    (c : string) (v : value) :
  format_determined p f = false ->
  fs_open E p = None ->
  fs_read E p = inr c ->
  whitespace_only c = false ->
  json_loads E c = inr v ->
  load_config E p f
  = (if truthy v then Return v
     else Raise (mk_exc ValueError
                   ("Configuration file " ++ p
                    ++ " is empty or contains no data.")),
     [EvOpen p; EvRead p; EvJsonLoads c]).
Proof. intros. apply autodetect_json_first; assumption. Qed.

Lemma X5_autodetect_json_first_witness :
  yaml_safe_load Demo.world "[1, 2]" = inr (VList [VInt 1; VInt 2])
  /\ load_config Demo.world "conf.txt" None
     = (Return (VList [VInt 1; VInt 2]),
        [EvOpen "conf.txt"; EvRead "conf.txt"; EvJsonLoads "[1, 2]"]).
Proof.
  split; [reflexivity|].
  exact (X5_autodetect_json_first Demo.world "conf.txt" None "[1, 2]"
           (VList [VInt 1; VInt 2]) eq_refl eq_refl eq_refl eq_refl eq_refl).
Defined.

(** X6.  On the same path, when the JSON parser rejects the text with a
    [JSONDecodeError] and the YAML parser accepts it, the loader returns
    the YAML value (or rejects it as empty when it is falsy); the JSON
    error is dropped. *)
Theorem X6_autodetect_yaml_fallback (E : Env) (p : string) (f : option string)
    (c : string) (e : exception) (v : value) :
  format_determined p f = false ->
  fs_open E p = None ->
  fs_read E p = inr c ->
  whitespace_only c = false ->
  json_loads E c = inl e ->
  exc_cls e = JSONDecodeError ->
  yaml_safe_load E c = inr v ->
  load_config E p f
  = (if truthy v then Return v
     else Raise (mk_exc ValueError
                   ("Configuration file " ++ p
                    ++ " is empty or contains no data.")),
     [EvOpen p; EvRead p; EvJsonLoads c; EvYamlLoads c]).
Proof. intros. eapply autodetect_yaml_fallback; eassumption. Qed.

Lemma X6_autodetect_yaml_fallback_witness :
  load_config Demo.world "settings.conf" None
  = (Return (VDict [(VStr "a", VInt 1)]),
     [ EvOpen "settings.conf"; EvRead "settings.conf";
       EvJsonLoads "a: 1"; EvYamlLoads "a: 1" ]).
Proof.
  exact (X6_autodetect_yaml_fallback Demo.world "settings.conf" None "a: 1"
           (mk_exc JSONDecodeError "Expecting value: line 1 column 1 (char 0)")
           (VDict [(VStr "a", VInt 1)])
           eq_refl eq_refl eq_refl eq_refl eq_refl eq_refl eq_refl).
Defined.

(** X7.  On the same path, when the JSON parser raises a
    [JSONDecodeError] and the YAML parser a [YAMLError], the loader
    raises a [ValueError] that carries neither parser's message but asks
    for [-f/--format]; the run prints it behind [Error: ] and ends with
    exit code 1. *)
Theorem X7_autodetect_undetermined (E : Env) (a : Args) (c : string)
    (e e' : exception) :
  format_determined (config_file a) (format a) = false ->
  fs_open E (config_file a) = None ->
  fs_read E (config_file a) = inr c ->
  whitespace_only c = false ->
  json_loads E c = inl e ->
  exc_cls e = JSONDecodeError ->
  yaml_safe_load E c = inl e' ->
  exc_cls e' = YAMLError ->
  fst (load_config E (config_file a) (format a))
  = Raise (mk_exc ValueError
             ("Could not determine format of " ++ config_file a
              ++ ".  Please specify format using -f/--format."))
  /\ stdout_of (snd (main E a))
     = [ ("Error: Could not determine format of " ++ config_file a
          ++ ".  Please specify format using -f/--format.")%string ]
  /\ exit_code (main E a) = 1%Z.
Proof.
  intros D O R W J K Y K'.
  pose proof (autodetect_undetermined E _ _ c D O R W e e' J K Y K') as L.
  split; [rewrite L; reflexivity|].
  rewrite main_stdout, main_exit_code, main_try_eq, L. split; reflexivity.
Qed.

Lemma X7_autodetect_undetermined_witness :
  stdout_of (snd (main Variants.unparsable (Demo.args "settings" "any.schema" None)))
  = [ "Error: Could not determine format of settings.  Please specify format using -f/--format." ].
Proof.
  exact (proj1 (proj2
    (X7_autodetect_undetermined Variants.unparsable
       (Demo.args "settings" "any.schema" None) "{"
       (mk_exc JSONDecodeError
          "Expecting property name enclosed in double quotes: line 1 column 2 (char 1)")
       (mk_exc YAMLError "while parsing a flow node")
       eq_refl eq_refl eq_refl eq_refl eq_refl eq_refl eq_refl eq_refl))).
Defined.

(** X8.  On the same path the YAML parser is tried exactly when the JSON
    parser raised a [JSONDecodeError]: not when it returned a value, and
    not when it failed in any other way. *)
Theorem X8_yaml_trial_condition (E : Env) (p : string) (f : option string)
    (c : string) :
  format_determined p f = false ->
  fs_open E p = None ->
  fs_read E p = inr c ->
  whitespace_only c = false ->
  existsb is_yaml (snd (load_config E p f))
  = match json_loads E c with
    | inl e => issubclass (exc_cls e) JSONDecodeError
    | inr _ => false
    end.
Proof. intros. apply autodetect_yaml_trial; assumption. Qed.

Lemma X8_yaml_trial_condition_witness :
  existsb is_yaml (snd (load_config Demo.world "settings.conf" None)) = true
  /\ existsb is_yaml (snd (load_config Demo.world "conf.txt" None)) = false.
Proof.
  split.
  - exact (X8_yaml_trial_condition Demo.world "settings.conf" None "a: 1"
             eq_refl eq_refl eq_refl eq_refl).
  - exact (X8_yaml_trial_condition Demo.world "conf.txt" None "[1, 2]"
             eq_refl eq_refl eq_refl eq_refl).
Defined.

(** ** [load_config]: what it returns and what it raises *)

(** X9.  For a file whose name ends in [.yaml] or [.yml], loading with
    the hint [yaml] and loading without a hint give the same result after
    the same calls, and so the whole run is the same. *)
Theorem X9_yaml_hint_idempotent (E : Env) (p : string) :
  endswith p ".yaml" || endswith p ".yml" = true ->
  load_config E p (Some "yaml") = load_config E p None
  /\ (forall a, config_file a = p ->
        main E (with_format a (Some "yaml")) = main E (with_format a None)).
Proof.
  intros X.
  assert (SY : selects_yaml p None = true) by exact X.
  pose proof (selects_yaml_not_json p None SY) as SJ.
  assert (L : load_config E p (Some "yaml") = load_config E p None).
  { unfold load_config. rewrite !parse_config_branches, SJ, SY. reflexivity. }
  split; [exact L|].
  intros a <-. unfold main, main_try, with_format.
  cbn [config_file schema_file format log_level]. rewrite L. reflexivity.
Qed.

Lemma X9_yaml_hint_idempotent_witness :
  load_config Demo.world "settings.yml" (Some "yaml")
  = load_config Demo.world "settings.yml" None.
Proof.
  exact (proj1 (X9_yaml_hint_idempotent Demo.world "settings.yml" eq_refl)).
Defined.

(** X10.  A document that [load_config] returns was made by one of the
    two parsers from the text read from a file that opened: the loader
    never returns anything else. *)
Theorem X10_document_origin (E : Env) (p : string) (f : option string)
    (v : value) :
  fst (load_config E p f) = Return v ->
  fs_open E p = None
  /\ exists c, fs_read E p = inr c
               /\ (json_loads E c = inr v \/ yaml_safe_load E c = inr v).
Proof.
  intros L. destruct (load_config_returns E p f v L) as [P _]. split.
  - rewrite parse_config_branches in P. unfold call_ in P.
    destruct (fs_open E p); [discriminate P|reflexivity].
  - exact (parse_config_returns E p f v P).
Qed.

Lemma X10_document_origin_witness :
  fs_open Demo.world "settings.conf" = None
  /\ exists c, fs_read Demo.world "settings.conf" = inr c
               /\ (json_loads Demo.world c = inr (VDict [(VStr "a", VInt 1)])
                   \/ yaml_safe_load Demo.world c
                      = inr (VDict [(VStr "a", VInt 1)])).
Proof.
  exact (X10_document_origin Demo.world "settings.conf" None
           (VDict [(VStr "a", VInt 1)]) eq_refl).
Defined.

(** X11.  Whatever goes wrong in [load_config], the exception that leaves
    it is a [FileNotFoundError], a [ValueError] (or a subclass), or a
    plain [Exception]: the classes its docstring lists. *)
Theorem X11_load_config_raises (E : Env) (p : string) (f : option string)
    (e : exception) :
  fst (load_config E p f) = Raise e ->
  exc_cls e = FileNotFoundError
  \/ issubclass (exc_cls e) ValueError = true
  \/ exc_cls e = Exception.
Proof. apply load_config_raise_class. Qed.

Lemma X11_load_config_raises_witness :
  exc_cls Variants.undecodable = FileNotFoundError
  \/ issubclass (exc_cls Variants.undecodable) ValueError = true
  \/ exc_cls Variants.undecodable = Exception.
Proof.
  exact (X11_load_config_raises Variants.binary_files "conf.json" None
           Variants.undecodable eq_refl).
Defined.

(** ** The shape of a run *)

Section Runs.

Variable E : Env.

(** Every run sets the level, makes calls that neither print nor log, and
    ends with one log record and one printed line. *)
Lemma main_trace_shape (a : Args) :
  exists q,
    forallb is_quiet q = true
    /\ snd (main E a)
       = EvSetLevel (log_level a) :: q ++
         match fst (main_try E a) with
         | Return _ => [ EvLog INFO valid_message; EvPrint valid_message ]
         | Raise e =>
             if reported_as_error (exc_cls e)
             then [ EvLog ERROR (exc_str e);
                    EvPrint ("Error: " ++ exc_str e) ]
             else [ EvLog ERROR ("An unexpected error occurred: " ++ exc_str e);
                    EvPrint ("An unexpected error occurred: " ++ exc_str e) ]
         | Exit _ => []
         end.
Proof.
  pose proof (main_try_never_exits E a) as N.
  destruct (fst (main_try E a)) as [u|e|c] eqn:T.
  - rewrite main_eq. rewrite main_try_eq in *.
    destruct (load_config_loader_like E (config_file a) (format a)) as [_ H1].
    destruct (load_schema_loader_like E (schema_file a)) as [_ H2].
    apply io_quiet in H1. apply io_quiet in H2.
    destruct (load_config E (config_file a) (format a)) as [[cfg|e|c] t1];
      cbn [fst snd] in *; try discriminate.
    destruct (load_schema E (schema_file a)) as [[sch|e|c] t2];
      cbn [fst snd] in *; try discriminate.
    destruct (validate E cfg sch); cbn [fst snd] in *; try discriminate.
    exists (t1 ++ t2 ++ [EvValidate cfg sch]). split.
    + rewrite !forallb_app, H1, H2. reflexivity.
    + rewrite <- !app_assoc. reflexivity.
  - pose proof (main_try_raise_quiet E a e T) as Q.
    rewrite main_eq. destruct (main_try E a) as [o t].
    cbn [fst snd] in *. subst o. exists t. split; [exact Q|reflexivity].
  - exfalso. exact (N c eq_refl).
Qed.

Lemma main_logged (a : Args) :
  logged (snd (main E a))
  = match fst (main_try E a) with
    | Return _ => [ (INFO, valid_message) ]
    | Raise e =>
        [ (ERROR,
           if reported_as_error (exc_cls e)
           then exc_str e
           else ("An unexpected error occurred: " ++ exc_str e)%string) ]
    | Exit _ => []
    end.
Proof.
  destruct (main_trace_shape a) as (q & Q & ->).
  cbn [logged]. rewrite logged_app, (quiet_logged _ Q).
  destruct (fst (main_try E a)) as [u|e|c]; try reflexivity.
  destruct (reported_as_error (exc_cls e)); reflexivity.
Qed.

Lemma main_surfaced (a : Args) :
  surfaced (snd (main E a))
  = filter (fun r => Z.leb (levelno (log_level a)) (levelno (fst r)))
      (logged (snd (main E a))).
Proof.
  rewrite main_logged.
  destruct (main_trace_shape a) as (q & Q & ->).
  unfold surfaced. cbn [log_stream]. rewrite (quiet_log_stream _ _ _ Q).
  destruct (fst (main_try E a)) as [u|e|c]; try reflexivity.
  destruct (reported_as_error (exc_cls e)); reflexivity.
Qed.

Lemma main_validator_invoked (a : Args) :
  validator_invoked (snd (main E a))
  = match fst (load_config E (config_file a) (format a)) with
    | Return _ =>
        match fst (load_schema E (schema_file a)) with
        | Return _ => true
        | _ => false
        end
    | _ => false
    end.
Proof.
  rewrite main_eq, main_try_eq.
  destruct (load_config_loader_like E (config_file a) (format a)) as [_ H1].
  destruct (load_schema_loader_like E (schema_file a)) as [_ H2].
  apply io_validator in H1. apply io_validator in H2.
  unfold validator_invoked in *.
  destruct (load_config E (config_file a) (format a)) as [[cfg|e|c] t1];
    cbn [fst snd] in *.
  - destruct (load_schema E (schema_file a)) as [[sch|e|c] t2];
      cbn [fst snd] in *.
    + destruct (validate E cfg sch); cbn [snd existsb is_validate orb];
        rewrite !existsb_app, H1, H2; cbn;
        rewrite ?orb_true_r; reflexivity.
    + cbn [existsb is_validate orb]. rewrite !existsb_app, H1, H2.
      destruct (reported_as_error (exc_cls e)); reflexivity.
    + cbn [existsb is_validate orb]. rewrite !existsb_app, H1, H2.
      reflexivity.
  - cbn [existsb is_validate orb]. rewrite !existsb_app, H1.
    destruct (reported_as_error (exc_cls e)); reflexivity.
  - cbn [existsb is_validate orb]. exact H1.
Qed.

End Runs.

Section Outcomes.

Variable E : Env.

Lemma main_try_config_fails (a : Args) (e : exception) :
  fst (load_config E (config_file a) (format a)) = Raise e ->
  main_try E a = (Raise e, snd (load_config E (config_file a) (format a))).
Proof.
  rewrite main_try_eq.
  destruct (load_config E (config_file a) (format a)) as [o t1].
  cbn [fst snd]. intros ->. reflexivity.
Qed.

Lemma main_try_schema_fails (a : Args) (cfg : value) (e : exception) :
  fst (load_config E (config_file a) (format a)) = Return cfg ->
  fst (load_schema E (schema_file a)) = Raise e ->
  fst (main_try E a) = Raise e.
Proof.
  rewrite main_try_eq.
  destruct (load_config E (config_file a) (format a)) as [o t1].
  destruct (load_schema E (schema_file a)) as [o' t2].
  cbn [fst snd]. intros -> ->. reflexivity.
Qed.

Lemma main_try_after_loads (a : Args) (cfg sch : value) :
  fst (load_config E (config_file a) (format a)) = Return cfg ->
  fst (load_schema E (schema_file a)) = Return sch ->
  fst (main_try E a)
  = match validate E cfg sch with
    | None => Return tt
    | Some e => Raise (engine_error e)
    end.
Proof.
  rewrite main_try_eq.
  destruct (load_config E (config_file a) (format a)) as [o t1].
  destruct (load_schema E (schema_file a)) as [o' t2].
  cbn [fst snd]. intros -> ->. destruct (validate E cfg sch); reflexivity.
Qed.

Lemma load_schema_missing (p : string) (e0 : exception) :
  fs_open E p = Some e0 ->
  exc_cls e0 = FileNotFoundError ->
  load_schema E p
  = (Raise (mk_exc FileNotFoundError ("Schema file not found: " ++ p)),
     [EvOpen p]).
Proof.
  intros O K. destruct e0 as [k s]. cbn in K. subst k.
  unfold load_schema, call_. rewrite O. reflexivity.
Qed.

Lemma load_schema_syntax_error (p c : string) (e : exception) :
  fs_open E p = None ->
  fs_read E p = inr c ->
  json_loads E c = inl e ->
  exc_cls e = JSONDecodeError ->
  load_schema E p
  = (Raise (mk_exc Exception
              ("Error reading schema file: Invalid JSON format in schema file "
               ++ p ++ ": " ++ exc_str e)),
     [EvOpen p; EvJsonLoad p]).
Proof.
  intros O R J K. destruct e as [k s]. cbn in K. subst k.
  unfold load_schema, call_, call, json_load. rewrite O, R, J. reflexivity.
Qed.

End Outcomes.

(** ** [load_schema] *)

(** X12.  When the configuration loaded and the schema file does not
    exist, the run logs [Schema file not found: <path>], prints it behind
    [Error: ], ends with exit code 1 and never calls the engine. *)
Theorem X12_missing_schema_run (E : Env) (a : Args) (cfg : value)
    (e0 : exception) :
  fst (load_config E (config_file a) (format a)) = Return cfg ->
  fs_open E (schema_file a) = Some e0 ->
  exc_cls e0 = FileNotFoundError ->
  stdout_of (snd (main E a))
  = [ ("Error: Schema file not found: " ++ schema_file a)%string ]
  /\ logged (snd (main E a))
     = [ (ERROR, ("Schema file not found: " ++ schema_file a)%string) ]
  /\ exit_code (main E a) = 1%Z
  /\ validator_invoked (snd (main E a)) = false.
Proof.
  intros L O K.
  pose proof (load_schema_missing E _ e0 O K) as S.
  assert (T : fst (main_try E a)
              = Raise (mk_exc FileNotFoundError
                         ("Schema file not found: " ++ schema_file a))).
  { apply (main_try_schema_fails E a cfg _ L). rewrite S. reflexivity. }
  rewrite main_stdout, main_logged, main_exit_code, main_validator_invoked.
  rewrite T, L, S. repeat split; reflexivity.
Qed.

Lemma X12_missing_schema_run_witness :
  stdout_of (snd (main Demo.world (Demo.args "conf.json" "nope.schema" None)))
  = [ "Error: Schema file not found: nope.schema" ]
  /\ logged (snd (main Demo.world (Demo.args "conf.json" "nope.schema" None)))
     = [ (ERROR, "Schema file not found: nope.schema") ]
  /\ exit_code (main Demo.world (Demo.args "conf.json" "nope.schema" None)) = 1%Z
  /\ validator_invoked
       (snd (main Demo.world (Demo.args "conf.json" "nope.schema" None)))
     = false.
Proof.
  exact (X12_missing_schema_run Demo.world
           (Demo.args "conf.json" "nope.schema" None)
           (VList [VInt 1; VInt 2]) (Demo.no_such_file "nope.schema")
           eq_refl eq_refl eq_refl).
Defined.

(** X13.  When the schema file opens but is not JSON, [load_schema] does
    not raise a [ValueError]: its last clause wraps its own
    [Invalid JSON format in schema file] error into a plain [Exception]
    whose message starts with [Error reading schema file: ].  A run whose
    configuration loaded therefore prints that message behind
    [An unexpected error occurred: ], and ends with exit code 1. *)
Theorem X13_schema_syntax_error_run (E : Env) (a : Args) (cfg : value)
    (c : string) (e : exception) :
  fst (load_config E (config_file a) (format a)) = Return cfg ->
  fs_open E (schema_file a) = None ->
  fs_read E (schema_file a) = inr c ->
  json_loads E c = inl e ->
  exc_cls e = JSONDecodeError ->
  fst (load_schema E (schema_file a))
  = Raise (mk_exc Exception
             ("Error reading schema file: Invalid JSON format in schema file "
              ++ schema_file a ++ ": " ++ exc_str e))
  /\ stdout_of (snd (main E a))
     = [ ("An unexpected error occurred: Error reading schema file: Invalid JSON format in schema file "
          ++ schema_file a ++ ": " ++ exc_str e)%string ]
  /\ exit_code (main E a) = 1%Z.
Proof.
  intros L O R J K.
  pose proof (load_schema_syntax_error E _ c e O R J K) as S.
  split; [rewrite S; reflexivity|].
  rewrite main_stdout, main_exit_code.
  rewrite (main_try_schema_fails E a cfg _ L (f_equal fst S)).
  split; reflexivity.
Qed.

Lemma X13_schema_syntax_error_run_witness :
  stdout_of (snd (main Demo.world (Demo.args "conf.json" "broken.schema" None)))
  = [ "An unexpected error occurred: Error reading schema file: Invalid JSON format in schema file broken.schema: Expecting value: line 1 column 1 (char 0)" ].
Proof.
  exact (proj1 (proj2
    (X13_schema_syntax_error_run Demo.world
       (Demo.args "conf.json" "broken.schema" None)
       (VList [VInt 1; VInt 2]) "not json at all"
       (mk_exc JSONDecodeError "Expecting value: line 1 column 1 (char 0)")
       eq_refl eq_refl eq_refl eq_refl eq_refl))).
Defined.

(** X14.  Every exception that leaves [load_schema] is a
    [FileNotFoundError] or a plain [Exception]; it never raises a
    [ValueError], whatever the file system and the parser do. *)
Theorem X14_load_schema_raises (E : Env) (p : string) (e : exception) :
  fst (load_schema E p) = Raise e ->
  (exc_cls e = FileNotFoundError \/ exc_cls e = Exception)
  /\ issubclass (exc_cls e) ValueError = false.
Proof.
  intros H. pose proof (load_schema_raise_class E p e H) as K.
  split; [exact K|]. destruct K as [-> | ->]; reflexivity.
Qed.

Lemma X14_load_schema_raises_witness :
  issubclass
    (exc_cls (mk_exc Exception
       "Error reading schema file: Invalid JSON format in schema file broken.schema: Expecting value: line 1 column 1 (char 0)"))
    ValueError = false.
Proof.
  exact (proj2 (X14_load_schema_raises Demo.world "broken.schema"
    (mk_exc Exception
       "Error reading schema file: Invalid JSON format in schema file broken.schema: Expecting value: line 1 column 1 (char 0)")
    eq_refl)).
Defined.

(** ** [validate_config] seen from the command line *)

(** X15.  When both files loaded and the engine rejects the schema itself
    with a [SchemaError], the run logs [Invalid schema: <engine message>],
    prints it behind [Error: ] and ends with exit code 1. *)
Theorem X15_invalid_schema_run (E : Env) (a : Args) (cfg sch : value)
    (e : exception) :
  fst (load_config E (config_file a) (format a)) = Return cfg ->
  fst (load_schema E (schema_file a)) = Return sch ->
  validate E cfg sch = Some e ->
  exc_cls e = SchemaError ->
  stdout_of (snd (main E a)) = [ ("Error: Invalid schema: " ++ exc_str e)%string ]
  /\ logged (snd (main E a)) = [ (ERROR, ("Invalid schema: " ++ exc_str e)%string) ]
  /\ exit_code (main E a) = 1%Z.
Proof.
  intros L S V K.
  rewrite main_stdout, main_logged, main_exit_code.
  rewrite (main_try_after_loads E a cfg sch L S), V.
  destruct e as [k s]. cbn in K. subst k. repeat split; reflexivity.
Qed.

Lemma X15_invalid_schema_run_witness :
  stdout_of (snd (main Demo.world (Demo.args "conf.json" "zero.json" None)))
  = [ "Error: Invalid schema: the schema is not a valid JSON Schema" ].
Proof.
  exact (proj1
    (X15_invalid_schema_run Demo.world (Demo.args "conf.json" "zero.json" None)
       (VList [VInt 1; VInt 2]) (VInt 0)
       (mk_exc SchemaError "the schema is not a valid JSON Schema")
       eq_refl eq_refl eq_refl eq_refl)).
Defined.

(** X16.  When both files loaded and the engine fails with anything that
    is neither a [ValidationError] nor a [SchemaError], the message goes
    through two catch-all clauses: the line on stdout, which is also the
    logged record, is [An unexpected error occurred: An unexpected error
    occurred during validation: <engine message>]; the exit code is 1. *)
Theorem X16_engine_crash_run (E : Env) (a : Args) (cfg sch : value)
    (e : exception) :
  fst (load_config E (config_file a) (format a)) = Return cfg ->
  fst (load_schema E (schema_file a)) = Return sch ->
  validate E cfg sch = Some e ->
  issubclass (exc_cls e) ValidationError = false ->
  issubclass (exc_cls e) SchemaError = false ->
  stdout_of (snd (main E a))
  = [ ("An unexpected error occurred: An unexpected error occurred during validation: "
       ++ exc_str e)%string ]
  /\ logged (snd (main E a))
     = [ (ERROR,
          ("An unexpected error occurred: An unexpected error occurred during validation: "
           ++ exc_str e)%string) ]
  /\ exit_code (main E a) = 1%Z.
Proof.
  intros L S V KV KS.
  rewrite main_stdout, main_logged, main_exit_code.
  rewrite (main_try_after_loads E a cfg sch L S), V.
  unfold engine_error. rewrite KV, KS. repeat split; reflexivity.
Qed.

Lemma X16_engine_crash_run_witness :
  stdout_of
    (snd (main Variants.crashing_engine (Demo.args "conf.json" "any.schema" None)))
  = [ "An unexpected error occurred: An unexpected error occurred during validation: maximum recursion depth exceeded" ].
Proof.
  exact (proj1
    (X16_engine_crash_run Variants.crashing_engine
       (Demo.args "conf.json" "any.schema" None)
       (VList [VInt 1; VInt 2]) (VDict [])
       (mk_exc Exception "maximum recursion depth exceeded")
       eq_refl eq_refl eq_refl eq_refl eq_refl)).
Defined.

(** X17.  When both files loaded and the engine reports a violation, the
    run logs [Configuration validation error: <engine message>], prints
    it behind [Error: ] and ends with exit code 1. *)
Theorem X17_violation_run (E : Env) (a : Args) (cfg sch : value)
    (e : exception) :
  fst (load_config E (config_file a) (format a)) = Return cfg ->
  fst (load_schema E (schema_file a)) = Return sch ->
  validate E cfg sch = Some e ->
  exc_cls e = ValidationError ->
  stdout_of (snd (main E a))
  = [ ("Error: Configuration validation error: " ++ exc_str e)%string ]
  /\ logged (snd (main E a))
     = [ (ERROR, ("Configuration validation error: " ++ exc_str e)%string) ]
  /\ exit_code (main E a) = 1%Z.
Proof.
  intros L S V K.
  rewrite main_stdout, main_logged, main_exit_code.
  rewrite (main_try_after_loads E a cfg sch L S), V.
  destruct e as [k s]. cbn in K. subst k. repeat split; reflexivity.
Qed.

Lemma X17_violation_run_witness :
  stdout_of (snd (main Demo.world (Demo.args "conf.json" "object.schema" None)))
  = [ ("Error: Configuration validation error: " ++ Demo.not_an_object)%string ]
  /\ exit_code (main Demo.world (Demo.args "conf.json" "object.schema" None))
     = 1%Z.
Proof.
  destruct (X17_violation_run Demo.world
              (Demo.args "conf.json" "object.schema" None)
              (VList [VInt 1; VInt 2]) Demo.type_object
              (mk_exc ValidationError Demo.not_an_object)
              eq_refl eq_refl eq_refl eq_refl) as (H1 & _ & H3).
  split; [exact H1|exact H3].
Defined.

(** ** [main]: sequencing and reporting *)

Lemma io_filter_validate (t : list event) :
  forallb is_io t = true -> filter is_validate t = [].
Proof.
  induction t as [|ev t IH]; simpl; [reflexivity|].
  intros H. apply andb_true_iff in H as [Hev Ht].
  destruct ev; try discriminate; exact (IH Ht).
Qed.

(** X18.  The engine is called only when both loads returned, and then
    exactly once, with the loaded document and the loaded schema; when
    either load fails it is not called at all. *)
Theorem X18_engine_called_once (E : Env) (a : Args) :
  filter is_validate (snd (main E a))
  = match fst (load_config E (config_file a) (format a)) with
    | Return cfg =>
        match fst (load_schema E (schema_file a)) with
        | Return sch => [ EvValidate cfg sch ]
        | _ => []
        end
    | _ => []
    end.
Proof.
  rewrite main_eq, main_try_eq.
  destruct (load_config_loader_like E (config_file a) (format a)) as [_ H1].
  destruct (load_schema_loader_like E (schema_file a)) as [_ H2].
  apply io_filter_validate in H1. apply io_filter_validate in H2.
  destruct (load_config E (config_file a) (format a)) as [[cfg|e|c] t1];
    cbn [fst snd] in *.
  - destruct (load_schema E (schema_file a)) as [[sch|e|c] t2];
      cbn [fst snd] in *.
    + destruct (validate E cfg sch); cbn [snd filter is_validate];
        rewrite !filter_app, H1, H2;
        [destruct (reported_as_error (exc_cls (engine_error e)))|];
        reflexivity.
    + cbn [filter is_validate]. rewrite !filter_app, H1, H2.
      destruct (reported_as_error (exc_cls e)); reflexivity.
    + cbn [filter is_validate]. rewrite !filter_app, H1, H2. reflexivity.
  - cbn [filter is_validate]. rewrite !filter_app, H1.
    destruct (reported_as_error (exc_cls e)); reflexivity.
  - cbn [filter is_validate]. exact H1.
Qed.

(** X19.  When [load_config] raises, the run consists of the level
    setting, the loader's own calls and the report of its exception:
    nothing of the schema loader or of the engine is run. *)
Theorem X19_config_failure_short_circuits (E : Env) (a : Args) (e : exception) :
  fst (load_config E (config_file a) (format a)) = Raise e ->
  snd (main E a)
  = EvSetLevel (log_level a)
    :: snd (load_config E (config_file a) (format a))
    ++ (if reported_as_error (exc_cls e)
        then [ EvLog ERROR (exc_str e); EvPrint ("Error: " ++ exc_str e) ]
        else [ EvLog ERROR ("An unexpected error occurred: " ++ exc_str e);
               EvPrint ("An unexpected error occurred: " ++ exc_str e) ]).
Proof.
  intros L. rewrite main_eq, (main_try_config_fails E a e L). reflexivity.
Qed.

Lemma X19_config_failure_short_circuits_witness :
  snd (main Demo.world (Demo.args "zero.json" "nope.schema" None))
  = [ EvSetLevel INFO; EvOpen "zero.json"; EvJsonLoad "zero.json";
      EvLog ERROR "Configuration file zero.json is empty or contains no data.";
      EvPrint "Error: Configuration file zero.json is empty or contains no data." ].
Proof.
  exact (X19_config_failure_short_circuits Demo.world
           (Demo.args "zero.json" "nope.schema" None)
           (mk_exc ValueError
              "Configuration file zero.json is empty or contains no data.")
           eq_refl).
Defined.

(** X22.  The log level only filters: what reaches the log stream is the
    list of records handed to the logger, restricted to those whose level
    is at least the selected one. *)
Theorem X22_level_filters_records (E : Env) (a : Args) :
  surfaced (snd (main E a))
  = filter (fun r => Z.leb (levelno (log_level a)) (levelno (fst r)))
      (logged (snd (main E a))).
Proof. apply main_surfaced. Qed.

(** ** The whole of [main()], argument parsing included *)

Lemma run_main_parsed (E : Env) (a : Args) : run_main E (ret a) = main E a.
Proof. unfold run_main, ret, bind. destruct (main E a); reflexivity. Qed.

(** X20.  When [parse_args] returns a namespace, [main()] lets no
    exception escape: it returns or calls [sys.exit(1)], so the exit code
    is 0 or 1.  When [parse_args] itself leaves through [sys.exit] (usage
    text, refused argument) or raises, [main()] does nothing more: the run
    ends there, with that exit code. *)
Theorem X20_exit_codes (E : Env) (parse_args : M Args) :
  match fst parse_args with
  | Return a =>
      fst (run_main E parse_args) = Return tt
      \/ fst (run_main E parse_args) = Exit 1%Z
  | Raise e => run_main E parse_args = (Raise e, snd parse_args)
  | Exit c => run_main E parse_args = (Exit c, snd parse_args)
  end.
Proof.
  unfold run_main. destruct parse_args as [[a|e|c] t0]; cbn [fst snd bind];
    try reflexivity.
  pose proof (main_try_never_exits E a) as N. rewrite main_eq.
  destruct (main_try E a) as [[[]|e|c] t]; cbn [fst] in *.
  - left. reflexivity.
  - right. reflexivity.
  - exfalso. exact (N c eq_refl).
Qed.

Example refused_argument_exits_2 :
  run_main Demo.world (sys_exit 2%Z) = (Exit 2%Z, [])
  /\ exit_code (run_main Demo.world (sys_exit 2%Z)) = 2%Z.
Proof. split; reflexivity. Qed.

(** X21.  In a run whose arguments parsed, [main()] calls [print] exactly
    once and hands exactly one record to the logger; the record is at
    level INFO when the exit code is 0 and at level ERROR otherwise.  (The
    printed text may hold line breaks, as an engine message does.) *)
Theorem X21_one_print_one_record (E : Env) (parse_args : M Args) (a : Args) :
  parse_args = ret a ->
  exists text msg,
    stdout_of (snd (run_main E parse_args)) = [ text ]
    /\ logged (snd (run_main E parse_args))
       = [ (if Z.eqb (exit_code (run_main E parse_args)) 0 then INFO else ERROR,
            msg) ].
Proof.
  intros ->. rewrite run_main_parsed.
  rewrite main_stdout, main_logged, main_exit_code.
  pose proof (main_try_never_exits E a) as N.
  destruct (fst (main_try E a)) as [u|e|c].
  - eexists. eexists. split; reflexivity.
  - eexists. eexists. split; reflexivity.
  - exfalso. exact (N c eq_refl).
Qed.

Lemma X21_one_print_one_record_witness :
  exists text msg,
    stdout_of (snd (run_main Demo.world
                      (ret (Demo.args "conf.json" "object.schema" None))))
    = [ text ]
    /\ logged (snd (run_main Demo.world
                      (ret (Demo.args "conf.json" "object.schema" None))))
       = [ (if Z.eqb
                 (exit_code (run_main Demo.world
                    (ret (Demo.args "conf.json" "object.schema" None)))) 0
            then INFO else ERROR, msg) ].
Proof.
  exact (X21_one_print_one_record Demo.world
           (ret (Demo.args "conf.json" "object.schema" None))
           (Demo.args "conf.json" "object.schema" None) eq_refl).
Defined.

(** X23.  In a run whose arguments parsed, [Configuration is valid.] is
    printed exactly when the exit code is 0: no failing run prints the
    confirmation, and every run that ends with 0 has printed it. *)
Theorem X23_confirmation_iff_success (E : Env) (parse_args : M Args) (a : Args) :
  parse_args = ret a ->
  existsb (String.eqb valid_message) (stdout_of (snd (run_main E parse_args)))
  = Z.eqb (exit_code (run_main E parse_args)) 0.
Proof.
  intros ->. rewrite run_main_parsed.
  rewrite main_stdout, main_exit_code.
  pose proof (main_try_never_exits E a) as N.
  destruct (fst (main_try E a)) as [u|e|c].
  - reflexivity.
  - destruct (reported_as_error (exc_cls e)); reflexivity.
  - exfalso. exact (N c eq_refl).
Qed.

Lemma X23_confirmation_iff_success_witness :
  existsb (String.eqb valid_message)
    (stdout_of (snd (run_main Demo.world
                       (ret (Demo.args "conf.json" "any.schema" None)))))
  = true
  /\ existsb (String.eqb valid_message)
       (stdout_of (snd (run_main Demo.world
                          (ret (Demo.args "conf.json" "object.schema" None)))))
     = false.
Proof.
  split.
  - exact (X23_confirmation_iff_success Demo.world
             (ret (Demo.args "conf.json" "any.schema" None))
             (Demo.args "conf.json" "any.schema" None) eq_refl).
  - exact (X23_confirmation_iff_success Demo.world
             (ret (Demo.args "conf.json" "object.schema" None))
             (Demo.args "conf.json" "object.schema" None) eq_refl).
Defined.

(** ** A blank configuration file, path by path *)

Section BlankConfig.

Variable E : Env.

(** A run whose configuration fails to load. *)
Lemma run_after_load_failure (a : Args) (e : exception) :
  fst (load_config E (config_file a) (format a)) = Raise e ->
  exit_code (main E a) = 1%Z
  /\ validator_invoked (snd (main E a)) = false
  /\ stdout_of (snd (main E a))
     = [ if reported_as_error (exc_cls e)
         then ("Error: " ++ exc_str e)%string
         else ("An unexpected error occurred: " ++ exc_str e)%string ].
Proof.
  intros L.
  rewrite main_exit_code, main_validator_invoked, main_stdout, L.
  rewrite (main_try_config_fails E a e L). repeat split; reflexivity.
Qed.

Lemma rejected_of_ValueError (a : Args) (message : string) :
  fst (load_config E (config_file a) (format a))
  = Raise (mk_exc ValueError message) ->
  rejected_with E a message.
Proof. intros L. exact (run_after_load_failure a _ L). Qed.

Lemma load_config_json_path (p : string) (f : option string) (c : string) :
  selects_json p f = true ->
  fs_open E p = None ->
  fs_read E p = inr c ->
  match json_loads E c with
  | inl _ => exists e', fst (load_config E p f) = Raise e'
  | inr v =>
      fst (load_config E p f)
      = if truthy v then Return v
        else Raise (mk_exc ValueError
                      ("Configuration file " ++ p
                       ++ " is empty or contains no data."))
  end.
Proof.
  intros S O R. unfold load_config. rewrite parse_config_branches, S.
  unfold call_, call, json_load. rewrite O, R.
  destruct (json_loads E c) as [[k s]|v].
  - destruct k; eexists; reflexivity.
  - cbn. destruct (truthy v); reflexivity.
Qed.

Lemma load_config_yaml_path (p : string) (f : option string) (c : string) :
  selects_json p f = false ->
  selects_yaml p f = true ->
  fs_open E p = None ->
  fs_read E p = inr c ->
  match yaml_safe_load E c with
  | inl e =>
      (exists e', fst (load_config E p f) = Raise e')
      /\ (exc_cls e = YAMLError ->
          fst (load_config E p f)
          = Raise (mk_exc ValueError
                     ("Invalid YAML format in " ++ p ++ ": " ++ exc_str e)))
  | inr v =>
      fst (load_config E p f)
      = if truthy v then Return v
        else Raise (mk_exc ValueError
                      ("Configuration file " ++ p
                       ++ " is empty or contains no data."))
  end.
Proof.
  intros SJ SY O R. unfold load_config. rewrite parse_config_branches, SJ, SY.
  unfold call_, call, yaml_load. rewrite O, R.
  destruct (yaml_safe_load E c) as [[k s]|v].
  - split; [destruct k; eexists; reflexivity|].
    cbn. intros ->. reflexivity.
  - cbn. destruct (truthy v); reflexivity.
Qed.

End BlankConfig.

(** C4, amended.  Take a configuration file that opens and whose text is
    empty or white space only.  When neither the hint nor the extension
    selects a parser, the run is turned down before the engine is called,
    with exit code 1 and [Error: Configuration file <path> is empty.] on
    stdout.  On the JSON path (hint [json], or no hint and a [.json] name)
    and on the YAML path (hint [yaml], or no hint and a [.yaml] or [.yml]
    name) there is no test of the text; the selected parser decides.  If
    it raises, the run ends with exit code 1 without calling the engine,
    and for the parser's own syntax error the line is
    [Error: Invalid JSON format in <path>: <message>] (or [Invalid YAML
    format]).  If it returns a falsy document the run is turned down with
    [Error: Configuration file <path> is empty or contains no data.].  If
    it returns a truthy document, [load_config] returns it and the run
    goes on. *)
Theorem C4_blank_config_by_path (E : Env) (a : Args) (c : string) :
  fs_open E (config_file a) = None ->
  fs_read E (config_file a) = inr c ->
  whitespace_only c = true ->
  if selects_json (config_file a) (format a) then
    match json_loads E c with
    | inl e =>
        exit_code (main E a) = 1%Z
        /\ validator_invoked (snd (main E a)) = false
        /\ (exc_cls e = JSONDecodeError ->
            stdout_of (snd (main E a))
            = [ ("Error: Invalid JSON format in " ++ config_file a ++ ": "
                 ++ exc_str e)%string ])
    | inr v =>
        if truthy v
        then fst (load_config E (config_file a) (format a)) = Return v
        else rejected_with E a
               ("Configuration file " ++ config_file a
                ++ " is empty or contains no data.")
    end
  else if selects_yaml (config_file a) (format a) then
    match yaml_safe_load E c with
    | inl e =>
        exit_code (main E a) = 1%Z
        /\ validator_invoked (snd (main E a)) = false
        /\ (exc_cls e = YAMLError ->
            stdout_of (snd (main E a))
            = [ ("Error: Invalid YAML format in " ++ config_file a ++ ": "
                 ++ exc_str e)%string ])
    | inr v =>
        if truthy v
        then fst (load_config E (config_file a) (format a)) = Return v
        else rejected_with E a
               ("Configuration file " ++ config_file a
                ++ " is empty or contains no data.")
    end
  else
    rejected_with E a ("Configuration file " ++ config_file a ++ " is empty.").
Proof.
  intros O R W.
  destruct (selects_json (config_file a) (format a)) eqn:SJ;
    [|destruct (selects_yaml (config_file a) (format a)) eqn:SY].
  - pose proof (load_config_json_path E _ _ c SJ O R) as P.
    destruct (json_loads E c) as [e|v] eqn:J.
    + destruct P as [e' L].
      destruct (run_after_load_failure E a e' L) as (X & V & _).
      split; [exact X|]. split; [exact V|]. intros K.
      pose proof (load_config_json_syntax_error E _ _ c e SJ O R J K) as L'.
      apply (f_equal fst) in L'. cbn [fst] in L'.
      exact (proj2 (proj2 (rejected_of_ValueError E a _ L'))).
    + destruct (truthy v); [exact P|].
      exact (rejected_of_ValueError E a _ P).
  - pose proof (load_config_yaml_path E _ _ c SJ SY O R) as P.
    destruct (yaml_safe_load E c) as [e|v].
    + destruct P as [[e' L] S].
      destruct (run_after_load_failure E a e' L) as (X & V & _).
      split; [exact X|]. split; [exact V|]. intros K.
      exact (proj2 (proj2 (rejected_of_ValueError E a _ (S K)))).
    + destruct (truthy v); [exact P|].
      exact (rejected_of_ValueError E a _ P).
  - apply rejected_of_ValueError.
    assert (D : format_determined (config_file a) (format a) = false)
      by (rewrite format_determined_split, SJ, SY; reflexivity).
    rewrite (load_config_autodetect_blank E _ _ c D O R W). reflexivity.
Qed.

Lemma C4_blank_config_by_path_witness :
  rejected_with Demo.world (Demo.args "empty.conf" "any.schema" None)
    "Configuration file empty.conf is empty."
  /\ rejected_with Demo.world (Demo.args "empty.yaml" "any.schema" None)
       "Configuration file empty.yaml is empty or contains no data."
  /\ (exit_code (main Demo.world (Demo.args "empty.json" "any.schema" None))
      = 1%Z
      /\ validator_invoked
           (snd (main Demo.world (Demo.args "empty.json" "any.schema" None)))
         = false)
  /\ fst (load_config Variants.nbsp_yaml "blank.yaml" None)
     = Return (VStr Variants.nbsp).
Proof.
  split; [|split; [|split]].
  - exact (C4_blank_config_by_path Demo.world
             (Demo.args "empty.conf" "any.schema" None) EmptyString
             eq_refl eq_refl eq_refl).
  - exact (C4_blank_config_by_path Demo.world
             (Demo.args "empty.yaml" "any.schema" None) EmptyString
             eq_refl eq_refl eq_refl).
  - destruct (C4_blank_config_by_path Demo.world
                (Demo.args "empty.json" "any.schema" None) EmptyString
                eq_refl eq_refl eq_refl) as (X & V & _).
    split; [exact X|exact V].
  - exact (C4_blank_config_by_path Variants.nbsp_yaml
             (Demo.args "blank.yaml" "any.schema" None) Variants.nbsp
             eq_refl eq_refl eq_refl).
Defined.
